(** * AnimItem: option resolution on load and staged save

    A shallow embedding of [studiolibrarymaya/animitem.py] (class
    [AnimItem]): the option schema [loadOptions], the option and
    source-window resolution of [load], and the staged [save].

    The item talks to three collaborators that live outside the file:
    the base item ([baseitem.BaseItem]), the transfer object
    ([mutils.Animation]) and the temporary directory ([mutils.TempDir]).
    Every call to one of them is an event of type [E]; a method of
    [AnimItem] is a program over these events, and [run] executes a
    program against an arbitrary handler, recording the calls that were
    made.  Theorems quantify over all handlers, so they hold whatever
    the collaborators answer. *)

From Stdlib Require Import ZArith String Ascii List Bool Lia.
From stdpp Require Import gmap strings.
Import ListNotations.
Local Open Scope string_scope.
Local Open Scope Z_scope.

(** ** Python values *)

(** The dynamically typed values that flow through [load] and [save].
    Floats and dictionaries are opaque to the item and are left out. *)
#[warnings="-register-all"]
Inductive pyval : Type :=
| PNone
| PBool (b : bool)
| PInt (z : Z)
| PStr (s : string)
| PList (l : list pyval)
| PTuple (l : list pyval).

(** Truth value of an object: [None], [False], [0] and the empty
    string, list and tuple are false. *)
Definition py_truthy (v : pyval) : bool :=
  match v with
  | PNone => false
  | PBool b => b
  | PInt z => negb (z =? 0)
  | PStr s => negb (String.eqb s "")
  | PList l | PTuple l => match l with [] => false | _ :: _ => true end
  end.

(** [a or b] *)
Definition py_or (a b : pyval) : pyval := if py_truthy a then a else b.

(** [v is None] *)
Definition is_none (v : pyval) : bool :=
  match v with PNone => true | _ => false end.

Definition Z_of_bool (b : bool) : Z := if b then 1 else 0.

(** [a == b]: numbers compare by value ([True == 1]), sequences
    element-wise and only with their own kind (a tuple never equals a
    list). *)
Fixpoint py_eq (a b : pyval) {struct a} : bool :=
  match a, b with
  | PNone, PNone => true
  | PBool x, PBool y => Bool.eqb x y
  | PBool x, PInt y => Z_of_bool x =? y
  | PInt x, PBool y => x =? Z_of_bool y
  | PInt x, PInt y => x =? y
  | PStr x, PStr y => String.eqb x y
  | PList xs, PList ys =>
      (fix go (xs ys : list pyval) {struct xs} : bool :=
         match xs, ys with
         | [], [] => true
         | x :: xs', y :: ys' => py_eq x y && go xs' ys'
         | _, _ => false
         end) xs ys
  | PTuple xs, PTuple ys =>
      (fix go (xs ys : list pyval) {struct xs} : bool :=
         match xs, ys with
         | [], [] => true
         | x :: xs', y :: ys' => py_eq x y && go xs' ys'
         | _, _ => false
         end) xs ys
  | _, _ => false
  end.

(** ** Strings *)

(** [str.lower] on one character.  Only the ASCII letters matter here:
    the result is compared with the ASCII literal ["replace all"]. *)
Definition lower_ascii (c : ascii) : ascii :=
  let n := N_of_ascii c in
  if ((65 <=? n) && (n <=? 90))%N then ascii_of_N (n + 32) else c.

Fixpoint lower (s : string) : string :=
  match s with
  | EmptyString => EmptyString
  | String c s' => String (lower_ascii c) (lower s')
  end.

(** [s.endswith(suffix)] *)
Fixpoint endswith (s suffix : string) : bool :=
  String.eqb s suffix ||
  match s with
  | EmptyString => false
  | String _ s' => endswith s' suffix
  end.

(** ** Exceptions *)

(** The built-in errors the item itself can raise, and [Failure] for
    whatever a collaborator raises. *)
Inductive exn : Type :=
| AttributeError
| TypeError
| ValueError
| Failure (what : string).

(** [option.lower()]: only a string has the attribute. *)
Definition str_lower (v : pyval) : exn + string :=
  match v with
  | PStr s => inr (lower s)
  | _ => inl AttributeError
  end.

(** [a, b = v]: unpacking into exactly two targets. *)
Definition unpack2 (v : pyval) : exn + (pyval * pyval) :=
  match v with
  | PList [a; b] | PTuple [a; b] => inr (a, b)
  | PList _ | PTuple _ => inl ValueError
  | PStr (String a (String b EmptyString)) =>
      inr (PStr (String a EmptyString), PStr (String b EmptyString))
  | PStr _ => inl ValueError
  | PNone | PBool _ | PInt _ => inl TypeError
  end.

(** ** Calls to the collaborators *)

(** Handles on the collaborators' objects. *)
Definition transfer_ref := nat.
Definition class_ref := nat.
Definition anim_ref := nat.
Definition tempdir_ref := nat.

(** The resolved request, the keyword arguments of
    [self.transferObject().load(...)]. *)
Record LoadRequest : Type := {
  req_objects : pyval;
  req_namespaces : pyval;
  req_currentTime : pyval;
  req_connect : pyval;
  req_option : pyval;
  req_startFrame : pyval;
  req_sourceTime : pyval * pyval
}.

Inductive E : Type -> Type :=
(* baseitem.BaseItem *)
| TransferObject : E transfer_ref
| TransferClass : E class_ref
| BaseSave (path : string) (contents : list string) : E unit
(* the transfer object, mutils.Animation *)
| TOStartFrame (t : transfer_ref) : E pyval
| TOEndFrame (t : transfer_ref) : E pyval
| TOLoad (t : transfer_ref) (req : LoadRequest) : E unit
| FromObjects (c : class_ref) (objects : pyval) : E anim_ref
| UpdateMetadata (a : anim_ref) (metadata : pyval) : E unit
| AnimSave (a : anim_ref) (path : string) (fileType time bakeConnected : pyval) : E unit
| AnimPaths (a : anim_ref) : E (list string)
(* mutils.TempDir *)
| TempDirNew (name : string) (clean : bool) : E tempdir_ref
| TempDirPath (d : tempdir_ref) : E string.

(** ** Programs *)

(** A method body: it returns, raises, writes a line to the module's
    logger, or calls a collaborator and goes on with the answer. *)
Inductive Prog (R : Type) : Type :=
| Ret (r : R)
| Raise (x : exn)
| Log (msg : string) (k : Prog R)
| Vis {X : Type} (e : E X) (k : X -> Prog R).

Arguments Ret {R} r.
Arguments Raise {R} x.
Arguments Log {R} msg k.
Arguments Vis {R X} e k.

Fixpoint bind {A B : Type} (m : Prog A) (f : A -> Prog B) : Prog B :=
  match m with
  | Ret a => f a
  | Raise x => Raise x
  | Log msg k => Log msg (bind k f)
  | Vis e k => Vis e (fun v => bind (k v) f)
  end.

Definition call {X : Type} (e : E X) : Prog X := Vis e Ret.

Definition lift {A : Type} (r : exn + A) : Prog A :=
  match r with
  | inl x => Raise x
  | inr a => Ret a
  end.

Definition info (msg : string) : Prog unit := Log msg (Ret tt).

Declare Scope prog_scope.
Delimit Scope prog_scope with prog.
Notation "x <- m ;; k" := (bind m (fun x => k))
  (at level 100, m at next level, right associativity) : prog_scope.
Notation "m ;; k" := (bind m (fun _ => k))
  (at level 100, right associativity) : prog_scope.
Local Open Scope prog_scope.

(** ** Running a program *)

(** One entry of the record of a run: a line logged, or a call with the
    collaborator's answer (an exception or a value). *)
Inductive entry : Type :=
| Logged (msg : string)
| Called {X : Type} (e : E X) (r : exn + X).

Inductive outcome (R : Type) : Type :=
| Returned (r : R)
| Raised (x : exn).

Arguments Returned {R} r.
Arguments Raised {R} x.

Record Run (W R : Type) : Type := {
  result : outcome R;
  trace : list entry;
  final : W
}.

Arguments result {W R} _.
Arguments trace {W R} _.
Arguments final {W R} _.

(** The collaborators: each call is answered from the current state of
    the world, which the call may change. *)
Definition handler (W : Type) : Type := forall X, E X -> W -> (exn + X) * W.

(** A collaborator's exception ends the run: neither [load] nor [save]
    catches anything. *)
Fixpoint run {W R : Type} (h : handler W) (p : Prog R) (w : W) : Run W R :=
  match p with
  | Ret r => {| result := Returned r; trace := []; final := w |}
  | Raise x => {| result := Raised x; trace := []; final := w |}
  | Log msg k =>
      let r := run h k w in
      {| result := result r; trace := Logged msg :: trace r; final := final r |}
  | Vis e k =>
      match h _ e w with
      | (inl x, w') =>
          {| result := Raised x; trace := [Called e (inl x)]; final := w' |}
      | (inr v, w') =>
          let r := run h (k v) w' in
          {| result := result r;
             trace := Called e (inr v) :: trace r;
             final := final r |}
      end
  end.

(** ** What a run shows *)

(** The requests handed to [TransferObject.load], in order. *)
Definition load_request (c : entry) : list LoadRequest :=
  match c with
  | Called e _ => match e with TOLoad _ req => [req] | _ => [] end
  | Logged _ => []
  end.

Definition load_requests (tr : list entry) : list LoadRequest :=
  flat_map load_request tr.

(** The [(path, contents)] pairs handed to [BaseItem.save], in order. *)
Definition commit (c : entry) : list (string * list string) :=
  match c with
  | Called e _ => match e with BaseSave p cs => [(p, cs)] | _ => [] end
  | Logged _ => []
  end.

Definition commits (tr : list entry) : list (string * list string) :=
  flat_map commit tr.

(** The values the transfer object answered for its start frame, its end
    frame and the files it wrote. *)
Definition start_frame (c : entry) : list pyval :=
  match c with
  | Called e r =>
      match e in E X return exn + X -> list pyval with
      | TOStartFrame _ => fun r => match r with inr v => [v] | inl _ => [] end
      | _ => fun _ => []
      end r
  | Logged _ => []
  end.

Definition end_frame (c : entry) : list pyval :=
  match c with
  | Called e r =>
      match e in E X return exn + X -> list pyval with
      | TOEndFrame _ => fun r => match r with inr v => [v] | inl _ => [] end
      | _ => fun _ => []
      end r
  | Logged _ => []
  end.

Definition reported_path (c : entry) : list (list string) :=
  match c with
  | Called e r =>
      match e in E X return exn + X -> list (list string) with
      | AnimPaths _ => fun r => match r with inr v => [v] | inl _ => [] end
      | _ => fun _ => []
      end r
  | Logged _ => []
  end.

Definition start_frames (tr : list entry) : list pyval := flat_map start_frame tr.
Definition end_frames (tr : list entry) : list pyval := flat_map end_frame tr.
Definition reported_paths (tr : list entry) : list (list string) :=
  flat_map reported_path tr.

(** The collaborator methods, without their arguments. *)
Inductive method : Type :=
| MTransferObject | MTransferClass | MBaseSave
| MStartFrame | MEndFrame | MLoad
| MFromObjects | MUpdateMetadata | MSave | MPaths
| MTempDir | MTempDirPath.

Definition method_of {X : Type} (e : E X) : method :=
  match e with
  | TransferObject => MTransferObject
  | TransferClass => MTransferClass
  | BaseSave _ _ => MBaseSave
  | TOStartFrame _ => MStartFrame
  | TOEndFrame _ => MEndFrame
  | TOLoad _ _ => MLoad
  | FromObjects _ _ => MFromObjects
  | UpdateMetadata _ _ => MUpdateMetadata
  | AnimSave _ _ _ _ _ => MSave
  | AnimPaths _ => MPaths
  | TempDirNew _ _ => MTempDir
  | TempDirPath _ => MTempDirPath
  end.

(** The calls that raised, with the exception. *)
Definition failure (c : entry) : list (method * exn) :=
  match c with
  | Called e (inl x) => [(method_of e, x)]
  | _ => []
  end.

Definition failures (tr : list entry) : list (method * exn) :=
  flat_map failure tr.

(** The calls that returned. *)
Definition success (c : entry) : list method :=
  match c with
  | Called e (inr _) => [method_of e]
  | _ => []
  end.

Definition successes (tr : list entry) : list method := flat_map success tr.

(** The staging steps of [save]: everything before the commit. *)
Definition staging (m : method) : bool :=
  match m with
  | MTempDir | MTempDirPath | MTransferClass
  | MFromObjects | MUpdateMetadata | MSave | MPaths => true
  | _ => false
  end.

(** The accessors, which only read the transfer object. *)
Definition accessor (m : method) : bool :=
  match m with
  | MTransferObject | MStartFrame | MEndFrame => true
  | _ => false
  end.

Definition reads_only (c : entry) : bool :=
  match c with
  | Called e _ => accessor (method_of e)
  | Logged _ => true
  end.

(** Modelled from the spec: the permanent location, which this module
    never writes itself.  [BaseItem.save] is missing from the sources;
    the spec makes it the one primitive that promotes staged files into
    place, atomically: a commit that returns leaves [contents] at
    [path], a commit that raises leaves the location as it was. *)
Definition promote (st : gmap string (list string)) (c : entry)
  : gmap string (list string) :=
  match c with
  | Called e r =>
      match e in E X return exn + X -> gmap string (list string) with
      | BaseSave p cs =>
          fun r => match r with inr _ => <[p := cs]> st | inl _ => st end
      | _ => fun _ => st
      end r
  | Logged _ => st
  end.

Definition permanent_after (st : gmap string (list string)) (tr : list entry)
  : gmap string (list string) :=
  fold_left promote tr st.

(** ** AnimItem *)

(** The state of the item this module reads: the path [BaseItem] keeps
    for it, returned by [self.path()]. *)
Record AnimItem : Type := { path : string }.

(** One entry of the option schema, a dictionary with the keys [name],
    [type], [default] and, for some entries, [items] or [persistent]. *)
Record descriptor : Type := {
  d_name : string;
  d_type : string;
  d_default : pyval;
  d_items : option (list string);
  d_persistent : option bool
}.

Definition startFrame (self : AnimItem) : Prog pyval :=
  t <- call TransferObject ;;
  call (TOStartFrame t).

Definition endFrame (self : AnimItem) : Prog pyval :=
  t <- call TransferObject ;;
  call (TOEndFrame t).

Definition loadOptions (self : AnimItem) : Prog (list descriptor) :=
  s <- startFrame self ;;
  let startFrame := py_or s (PInt 0) in
  e <- endFrame self ;;
  let endFrame := py_or e (PInt 0) in
  Ret [ {| d_name := "connect"; d_type := "bool";
           d_default := PBool false;
           d_items := None; d_persistent := None |};
        {| d_name := "currentTime"; d_type := "bool";
           d_default := PBool true;
           d_items := None; d_persistent := None |};
        {| d_name := "source"; d_type := "range";
           d_default := PList [startFrame; endFrame];
           d_items := None; d_persistent := Some false |};
        {| d_name := "option"; d_type := "enum";
           d_default := PStr "replace all";
           d_items := Some ["replace"; "replace all"; "insert"; "merge"];
           d_persistent := None |} ].

(** Lines 221-222 of [load]: the label ["replace all"], in any case,
    becomes [replaceCompletely]; the test raises when [option] has no
    [lower]. *)
Definition normalize_option (option_ : pyval) : exn + pyval :=
  match str_lower option_ with
  | inl x => inl x
  | inr lowered =>
      inr (if String.eqb lowered "replace all"
           then PStr "replaceCompletely"
           else option_)
  end.

(** Lines 224-227 of [load]. *)
Definition unpack_source (source : pyval) : exn + (pyval * pyval) :=
  if py_truthy source && negb (py_eq source (PList [PInt 0; PInt 0]))
  then unpack2 source
  else inr (PNone, PNone).

(** The decorator [mutils.showWaitCursor] belongs to the GUI and is
    left out; a parameter left at its default is [None]
    ([currentTime]: [False]). *)
Definition load (self : AnimItem)
    (objects namespaces startFrame_ source option_ connect currentTime : pyval)
  : Prog unit :=
  info ("Loading: " +:+ path self) ;;
  let objects := py_or objects (PList []) in
  option_ <- lift (normalize_option option_) ;;
  window <- lift (unpack_source source) ;;
  let sourceStart := fst window in
  let sourceEnd := snd window in
  sourceStart <- (if is_none sourceStart then startFrame self else Ret sourceStart) ;;
  sourceEnd <- (if is_none sourceEnd then endFrame self else Ret sourceEnd) ;;
  t <- call TransferObject ;;
  call (TOLoad t {| req_objects := objects;
                    req_namespaces := namespaces;
                    req_currentTime := currentTime;
                    req_connect := connect;
                    req_option := option_;
                    req_startFrame := startFrame_;
                    req_sourceTime := (sourceStart, sourceEnd) |}) ;;
  info ("Loaded: " +:+ path self).

(** Lines 272-273 of [save]. *)
Definition with_extension (path : string) : string :=
  if negb (String.eqb path "") && negb (endswith path ".anim")
  then path +:+ ".anim"
  else path.

(** [contents or list()] *)
Definition contents_or_empty (contents : option (list string)) : list string :=
  match contents with
  | Some (c :: cs) => c :: cs
  | Some [] | None => []
  end.

Definition save (self : AnimItem) (objects : pyval) (path : string)
    (contents : option (list string)) (iconPath : string)
    (fileType startFrame_ endFrame_ bakeConnected metadata : pyval)
  : Prog unit :=
  let path := with_extension path in
  let contents := contents_or_empty contents in
  tempDir <- call (TempDirNew "Transfer" true) ;;
  dir <- call (TempDirPath tempDir) ;;
  let tempPath := dir +:+ "/transfer.anim" in
  cls <- call TransferClass ;;
  anim <- call (FromObjects cls objects) ;;
  call (UpdateMetadata anim metadata) ;;
  call (AnimSave anim tempPath fileType (PList [startFrame_; endFrame_])
          bakeConnected) ;;
  let contents :=
    if negb (String.eqb iconPath "")
    then (contents ++ [iconPath])%list
    else contents in
  paths <- call (AnimPaths anim) ;;
  let contents := (contents ++ paths)%list in
  call (BaseSave path contents).

(** ** A scripted studio *)

(** Collaborators that answer from a script, whatever the state of the
    world: the handler used to run the methods on concrete inputs. *)
Record script : Type := {
  on_startFrame : exn + pyval;
  on_endFrame : exn + pyval;
  on_load : exn + unit;
  on_fromObjects : exn + anim_ref;
  on_updateMetadata : exn + unit;
  on_save : exn + unit;
  on_paths : exn + list string;
  on_commit : exn + unit
}.

Definition scripted (s : script) : handler unit :=
  fun X e w =>
    (match e in E X return exn + X with
     | TransferObject => inr 1%nat
     | TransferClass => inr 2%nat
     | BaseSave _ _ => on_commit s
     | TOStartFrame _ => on_startFrame s
     | TOEndFrame _ => on_endFrame s
     | TOLoad _ _ => on_load s
     | FromObjects _ _ => on_fromObjects s
     | UpdateMetadata _ _ => on_updateMetadata s
     | AnimSave _ _ _ _ _ => on_save s
     | AnimPaths _ => on_paths s
     | TempDirNew _ _ => inr 3%nat
     | TempDirPath _ => inr "/tmp/Transfer"
     end, w).

(** A studio whose bundle records the frames 0 to 200 and where every
    call returns. *)
Definition walk_cycle : script := {|
  on_startFrame := inr (PInt 0);
  on_endFrame := inr (PInt 200);
  on_load := inr tt;
  on_fromObjects := inr 4%nat;
  on_updateMetadata := inr tt;
  on_save := inr tt;
  on_paths := inr ["/tmp/Transfer/transfer.anim/pose.json";
                   "/tmp/Transfer/transfer.anim/animation.ma"];
  on_commit := inr tt
|}.

Definition malcolm : AnimItem :=
  {| path := "/AnimLibrary/Characters/Malcolm/malcolm.anim" |}.

(** ** What the methods are expected to produce *)

(** What [loadOptions] returns for the frames [s] and [e]. *)
Definition schema (s e : pyval) : list descriptor :=
  [ {| d_name := "connect"; d_type := "bool"; d_default := PBool false;
       d_items := None; d_persistent := None |};
    {| d_name := "currentTime"; d_type := "bool"; d_default := PBool true;
       d_items := None; d_persistent := None |};
    {| d_name := "source"; d_type := "range"; d_default := PList [s; e];
       d_items := None; d_persistent := Some false |};
    {| d_name := "option"; d_type := "enum"; d_default := PStr "replace all";
       d_items := Some ["replace"; "replace all"; "insert"; "merge"];
       d_persistent := None |} ].

(** The seven staging steps, in the order [save] takes them. *)
Definition staging_steps : list method :=
  [MTempDir; MTempDirPath; MTransferClass; MFromObjects; MUpdateMetadata;
   MSave; MPaths].

(** ** Concrete calls *)

(** A studio where the serialization fails. *)
Definition disk_full : script := {|
  on_startFrame := inr (PInt 0);
  on_endFrame := inr (PInt 200);
  on_load := inr tt;
  on_fromObjects := inr 4%nat;
  on_updateMetadata := inr tt;
  on_save := inl (Failure "disk full");
  on_paths := inr [];
  on_commit := inr tt
|}.

(** A studio whose transfer object has no recorded frames: both
    accessors answer [None]. *)
Definition no_frames : script := {|
  on_startFrame := inr PNone;
  on_endFrame := inr PNone;
  on_load := inr tt;
  on_fromObjects := inr 4%nat;
  on_updateMetadata := inr tt;
  on_save := inr tt;
  on_paths := inr [];
  on_commit := inr tt
|}.

(** [item.load(option="replace")] on it, [source] left unset. *)
Definition replay_no_frames : Run unit unit :=
  run (scripted no_frames)
      (load malcolm PNone PNone PNone PNone (PStr "replace") PNone
         (PBool false)) tt.

(** [item.load(option="replace", source=[None, 100])] and
    [item.load(option="replace", source=[50, None])] *)
Definition replay_from_start : Run unit unit :=
  run (scripted walk_cycle)
      (load malcolm PNone PNone PNone (PList [PNone; PInt 100])
         (PStr "replace") PNone (PBool false)) tt.

Definition replay_to_end : Run unit unit :=
  run (scripted walk_cycle)
      (load malcolm PNone PNone PNone (PList [PInt 50; PNone])
         (PStr "replace") PNone (PBool false)) tt.

(** [item.load(objects=["pCube1"], option="Replace All")] *)
Definition replay_all : Run unit unit :=
  run (scripted walk_cycle)
      (load malcolm (PList [PStr "pCube1"]) PNone PNone PNone
         (PStr "Replace All") PNone (PBool false)) tt.

(** [item.load(option="Merge", source=[50, 100], connect=True)] *)
Definition replay_merge : Run unit unit :=
  run (scripted walk_cycle)
      (load malcolm PNone PNone PNone (PList [PInt 50; PInt 100])
         (PStr "Merge") (PBool true) (PBool false)) tt.

(** [item.load(option="replace", source=[0, 0])] *)
Definition replay_sentinel : Run unit unit :=
  run (scripted walk_cycle)
      (load malcolm PNone PNone PNone (PList [PInt 0; PInt 0])
         (PStr "replace") PNone (PBool false)) tt.

(** [item.save(["pCube1"], "/lib/char/walk", contents=["/tmp/sequence"],
    iconPath="/tmp/thumbnail.jpg", startFrame=0, endFrame=200)] *)
Definition save_walk (s : script) : Run unit unit :=
  run (scripted s)
      (save malcolm (PList [PStr "pCube1"]) "/lib/char/walk"
         (Some ["/tmp/sequence"]) "/tmp/thumbnail.jpg" (PStr "mayaAscii")
         (PInt 0) (PInt 200) (PBool false) PNone) tt.

(** The same call without a path. *)
Definition save_nowhere : Run unit unit :=
  run (scripted walk_cycle)
      (save malcolm (PList [PStr "pCube1"]) ""
         (Some ["/tmp/sequence"]) "/tmp/thumbnail.jpg" (PStr "mayaAscii")
         (PInt 0) (PInt 200) (PBool false) PNone) tt.

(** ** More of what a run shows *)

(** The lines written to the logger, in order. *)
Definition log_line (c : entry) : list string :=
  match c with
  | Logged msg => [msg]
  | Called _ _ => []
  end.

Definition logged (tr : list entry) : list string := flat_map log_line tr.

(** The collaborator methods called, in order, whatever they answered. *)
Definition called (c : entry) : list method :=
  match c with
  | Called e _ => [method_of e]
  | Logged _ => []
  end.

Definition calls (tr : list entry) : list method := flat_map called tr.

(** The arguments of [mutils.TempDir(...)] and the directories the
    temporary directory answered for [path()]. *)
Definition tempdir_request (c : entry) : list (string * bool) :=
  match c with
  | Called e _ =>
      match e with TempDirNew name clean => [(name, clean)] | _ => [] end
  | Logged _ => []
  end.

Definition tempdir_path (c : entry) : list string :=
  match c with
  | Called e r =>
      match e in E X return exn + X -> list string with
      | TempDirPath _ => fun r => match r with inr v => [v] | inl _ => [] end
      | _ => fun _ => []
      end r
  | Logged _ => []
  end.

Definition tempdir_requests (tr : list entry) : list (string * bool) :=
  flat_map tempdir_request tr.
Definition tempdir_paths (tr : list entry) : list string :=
  flat_map tempdir_path tr.

(** The objects handed to [fromObjects], the metadata handed to
    [updateMetadata] and the arguments [(path, fileType, time,
    bakeConnected)] of [anim.save]. *)
Definition capture (c : entry) : list pyval :=
  match c with
  | Called e _ => match e with FromObjects _ objects => [objects] | _ => [] end
  | Logged _ => []
  end.

Definition metadata_update (c : entry) : list pyval :=
  match c with
  | Called e _ => match e with UpdateMetadata _ md => [md] | _ => [] end
  | Logged _ => []
  end.

Definition serialization (c : entry) : list (string * pyval * pyval * pyval) :=
  match c with
  | Called e _ =>
      match e with
      | AnimSave _ p fileType time bake => [(p, fileType, time, bake)]
      | _ => []
      end
  | Logged _ => []
  end.

Definition captures (tr : list entry) : list pyval := flat_map capture tr.
Definition metadata_updates (tr : list entry) : list pyval :=
  flat_map metadata_update tr.
Definition serializations (tr : list entry)
  : list (string * pyval * pyval * pyval) :=
  flat_map serialization tr.

(** ** The other methods *)

(** [v += s] for a string [s]: a string is extended, a list takes the
    characters of [s] one by one, anything else cannot be added to. *)
Fixpoint characters (s : string) : list pyval :=
  match s with
  | EmptyString => []
  | String c s' => PStr (String c EmptyString) :: characters s'
  end.

Definition py_iadd_str (v : pyval) (s : string) : exn + pyval :=
  match v with
  | PStr a => inr (PStr (a +:+ s))
  | PList l => inr (PList (l ++ characters s))
  | PNone | PBool _ | PInt _ | PTuple _ => inl TypeError
  end.

(** Lines 165-176 of [optionsChanged]: the name handed to
    [logger.debug], computed from the keyword arguments (a missing key
    reads as [None]).  The call of the base class before it is left
    out. *)
Definition options_basename (options : gmap string pyval) : exn + pyval :=
  let option_ := default PNone (options !! "option") in
  let connect := default PNone (options !! "connect") in
  let basename :=
    if py_eq option_ (PStr "replace all")
    then PStr "replaceCompletely"
    else option_ in
  if py_truthy connect && negb (py_eq basename (PStr "replaceCompletely"))
  then py_iadd_str basename "Connect"
  else inr basename.

(** [l.insert(i, x)] for an index that is not negative: past the end
    the element is appended. *)
Definition py_list_insert {A : Type} (i : nat) (x : A) (l : list A) : list A :=
  firstn i l ++ x :: skipn i l.

(** One row of [info()], the dictionary [{"name": ..., "value": ...}]. *)
Definition info_row (name value : string) : gmap string pyval :=
  {[ "name" := PStr name; "value" := PStr value ]}.

(** Lines 115-118 of [info]: the two rows inserted into the rows of the
    base item; [startFrame] and [endFrame] are the strings
    [str(self.startFrame())] and [str(self.endFrame())]. *)
Definition info_with_frames (info : list (gmap string pyval))
    (startFrame endFrame : string) : list (gmap string pyval) :=
  let info := py_list_insert 3 (info_row "Start frame" startFrame) info in
  let info := py_list_insert 4 (info_row "End frame" endFrame) info in
  info.

(** [imageSequencePath] *)
Definition imageSequencePath (self : AnimItem) : string :=
  path self +:+ "/sequence".

(** ** AnimCreateWidget *)

(** The state of the widget as its accessors report it when [save] is
    called: the frames of the two line edits ([startFrame()] and
    [endFrame()], an integer or [None]), the text of the file type combo
    box, the bake check box, the item, the icon path and the sequence
    path ([None] until a playblast is captured). *)
Record AnimCreateWidget : Type := {
  ui_startFrame : pyval;
  ui_endFrame : pyval;
  ui_fileType : string;
  ui_bakeChecked : bool;
  item : AnimItem;
  iconPath : string;
  sequencePath : option string
}.

(** [AnimCreateWidget.save]; [dirname] is [os.path.dirname]. *)
Definition AnimCreateWidget_save (dirname : string -> string)
    (self : AnimCreateWidget) (objects : pyval) (path_ iconPath_ : string)
    (metadata : pyval) : Prog unit :=
  let contents : option (list string) := None in
  let endFrame := ui_endFrame self in
  let startFrame := ui_startFrame self in
  let fileType := PStr (ui_fileType self) in
  let bakeConnected := PInt (Z_of_bool (ui_bakeChecked self)) in
  let item := item self in
  let iconPath_ := iconPath self in
  let contents :=
    match sequencePath self with
    | Some (String c s) => Some [dirname (String c s)]
    | Some EmptyString | None => contents
    end in
  save item objects path_ contents iconPath_ fileType startFrame endFrame
    bakeConnected metadata.

(** ** Proof automation *)

(** Case analysis on every answer of the collaborators [h] along a run. *)
Ltac answers_of h :=
  repeat match goal with
         | |- context [h ?X ?e ?w] => destruct (h X e w) as [[?|?] ?]; cbn
         end.

(** * Properties *)

(** ** Values and strings *)

(** [z or 0] is [z] for every integer: the only integer that is false
    is [0] itself. *)
Lemma py_or_int_zero (z : Z) : py_or (PInt z) (PInt 0) = PInt z.
Proof.
  unfold py_or. cbn. destruct (Z.eqb_spec z 0) as [-> | _]; reflexivity.
Qed.

Lemma py_eq_sentinel (s e : Z) :
  py_eq (PList [PInt s; PInt e]) (PList [PInt 0; PInt 0]) = true <->
  (s, e) = (0, 0).
Proof.
  cbn. destruct (Z.eqb_spec s 0), (Z.eqb_spec e 0); cbn; split;
    intros H; try discriminate; try congruence.
Qed.

Lemma endswith_refl (s : string) : endswith s s = true.
Proof. destruct s; cbn [endswith]; rewrite String.eqb_refl; reflexivity. Qed.

Lemma endswith_app (p suffix : string) : endswith (p +:+ suffix) suffix = true.
Proof.
  induction p as [| c p IH]; simpl.
  - apply endswith_refl.
  - rewrite IH. apply orb_true_r.
Qed.

Lemma with_extension_has_extension (p : string) :
  p <> "" -> endswith (with_extension p) ".anim" = true.
Proof.
  intros Hp. unfold with_extension.
  destruct (String.eqb_spec p "") as [-> | _]; [congruence |].
  destruct (endswith p ".anim") eqn:Hext; cbn [negb andb].
  - exact Hext.
  - apply endswith_app.
Qed.

Lemma with_extension_fixed (p : string) :
  endswith p ".anim" = true -> with_extension p = p.
Proof.
  intros Hext. unfold with_extension. rewrite Hext, andb_false_r. reflexivity.
Qed.

Lemma with_extension_appends (p : string) :
  p <> "" -> endswith p ".anim" = false -> with_extension p = p +:+ ".anim".
Proof.
  intros Hp Hext. unfold with_extension. rewrite Hext.
  destruct (String.eqb_spec p ""); [congruence | reflexivity].
Qed.

Lemma contents_or_empty_some (l : list string) : contents_or_empty (Some l) = l.
Proof. destruct l; reflexivity. Qed.

(** ** Runs *)

Section Runs.
Context {W : Type} (h : handler W).

(** Running [m] then [f]: the traces are appended, and an exception in
    [m] ends the run. *)
Lemma run_bind {A B : Type} (m : Prog A) (f : A -> Prog B) (w : W) :
  run h (bind m f) w =
  match result (run h m w) with
  | Returned a =>
      let r := run h (f a) (final (run h m w)) in
      {| result := result r;
         trace := trace (run h m w) ++ trace r;
         final := final r |}
  | Raised x =>
      {| result := Raised x;
         trace := trace (run h m w);
         final := final (run h m w) |}
  end.
Proof.
  revert w. induction m as [a | x | msg k IH | X e k IH]; intros w; cbn.
  - destruct (run h (f a) w); reflexivity.
  - reflexivity.
  - rewrite IH. destruct (result (run h k w)); reflexivity.
  - destruct (h X e w) as [[x | v] w']; cbn; [reflexivity |].
    rewrite IH. destruct (result (run h (k v) w')); reflexivity.
Qed.

(** An exception raised by a collaborator is the outcome of the run:
    nothing in a program catches it or replaces it. *)
Lemma failure_propagates {R : Type} (p : Prog R) (w : W) (m : method) (x : exn) :
  In (m, x) (failures (trace (run h p w))) -> result (run h p w) = Raised x.
Proof.
  revert w. induction p as [a | y | msg k IH | X e k IH]; intros w; cbn.
  - intros [].
  - intros [].
  - apply IH.
  - destruct (h X e w) as [[y | v] w']; cbn.
    + intros [Heq | []]. congruence.
    + apply IH.
Qed.

(** A run without a failing call and without an error of the item's own
    returns; conversely a run that returned had no failing call. *)
Lemma returned_no_failure {R : Type} (p : Prog R) (w : W) (a : R) :
  result (run h p w) = Returned a -> failures (trace (run h p w)) = [].
Proof.
  revert w. induction p as [b | y | msg k IH | X e k IH]; intros w; cbn.
  - reflexivity.
  - reflexivity.
  - apply IH.
  - destruct (h X e w) as [[y | v] w']; cbn.
    + discriminate.
    + apply IH.
Qed.

(** Only a commit changes the permanent location. *)
Lemma permanent_untouched (tr : list entry) :
  commits tr = [] -> forall st, permanent_after st tr = st.
Proof.
  unfold permanent_after.
  induction tr as [| c tr IH]; cbn; intros Hc st; [reflexivity |].
  apply app_eq_nil in Hc as [Hc Htr].
  rewrite IH by exact Htr.
  destruct c as [msg | X e r]; [reflexivity |].
  destruct e; cbn in *; try reflexivity. discriminate.
Qed.

(** ** [load] *)

(** Once the option and the source window are resolved, [load] forwards
    exactly one request unless a collaborator raises on the way. *)
Lemma load_forwards (w : W) (self : AnimItem)
    (objects namespaces startFrame_ source option_ connect currentTime : pyval)
    (option' : pyval) (window : pyval * pyval) :
  normalize_option option_ = inr option' ->
  unpack_source source = inr window ->
  let r := run h (load self objects namespaces startFrame_ source option_
                    connect currentTime) w in
  failures (trace r) = [] ->
  result r = Returned tt /\ length (load_requests (trace r)) = 1%nat.
Proof.
  intros Hopt Hsrc r. subst r. unfold load. cbn.
  rewrite Hopt, Hsrc. destruct window as [a b]. cbn.
  destruct (is_none a), (is_none b); cbn; answers_of h;
    intros Hf; try discriminate Hf; split; reflexivity.
Qed.

(** C7.  A call of [load] without an option ([option] is [None]) raises
    [AttributeError] at [option.lower()], right after the line that
    announces the load: no frame of the bundle has been read, and
    [TransferObject.load] is not invoked. *)
Theorem load_without_option_raises :
  forall (w : W) (self : AnimItem)
         (objects namespaces startFrame_ source connect currentTime : pyval),
    let r := run h (load self objects namespaces startFrame_ source PNone
                      connect currentTime) w in
    r = {| result := Raised AttributeError;
           trace := [Logged ("Loading: " +:+ path self)];
           final := w |}
    /\ load_requests (trace r) = []
    /\ start_frames (trace r) = [] /\ end_frames (trace r) = [].
Proof. intros. subst r. repeat split. Qed.

(** C2, as amended.  For a string option [s], the option forwarded to
    [TransferObject.load] is [replaceCompletely] when [s] lower-cased is
    ["replace all"], and [s] itself, in the case it was given, otherwise;
    normalizing the forwarded value again leaves it as it is; and the
    request is forwarded whenever the source unpacks and no collaborator
    raises. *)
Theorem load_option_normalization :
  forall (w : W) (self : AnimItem)
         (objects namespaces startFrame_ source connect currentTime : pyval)
         (s : string),
    let forwarded :=
      if String.eqb (lower s) "replace all"
      then PStr "replaceCompletely" else PStr s in
    let r := run h (load self objects namespaces startFrame_ source (PStr s)
                      connect currentTime) w in
    Forall (fun req => req_option req = forwarded) (load_requests (trace r))
    /\ normalize_option (PStr s) = inr forwarded
    /\ normalize_option forwarded = inr forwarded
    /\ (forall window, unpack_source source = inr window ->
        failures (trace r) = [] ->
        length (load_requests (trace r)) = 1%nat).
Proof.
  intros w self objects namespaces startFrame_ source connect currentTime s
         forwarded r.
  assert (Hn : normalize_option (PStr s) = inr forwarded) by reflexivity.
  split; [| split; [exact Hn | split]].
  - subst r. unfold load. cbn. fold forwarded.
    destruct (unpack_source source) as [x | [a b]]; cbn; [constructor |].
    destruct (is_none a), (is_none b); cbn; answers_of h; repeat constructor.
  - subst forwarded. unfold normalize_option. cbn [str_lower].
    destruct (String.eqb (lower s) "replace all") eqn:Hs.
    + reflexivity.
    + cbn [str_lower]. rewrite Hs. reflexivity.
  - intros window Hsrc Hf.
    apply (load_forwards w self objects namespaces startFrame_ source (PStr s)
             connect currentTime forwarded window Hn Hsrc Hf).
Qed.

(** C3, as amended.  When [source] is unset or is the sentinel
    [[0, 0]], the [sourceTime] forwarded to [TransferObject.load] is the
    pair of the values the bundle answered, in this very call, for its
    start and its end frame, whatever these values are; the request is
    forwarded whenever no collaborator raises; and the window is free of
    [None] whenever the two answers are: [load] adds no fallback of its
    own. *)
Theorem load_default_source_window :
  forall (w : W) (self : AnimItem)
         (objects namespaces startFrame_ source connect currentTime : pyval)
         (s : string),
    source = PNone \/ source = PList [PInt 0; PInt 0] ->
    let r := run h (load self objects namespaces startFrame_ source (PStr s)
                      connect currentTime) w in
    Forall (fun req =>
              start_frames (trace r) = [fst (req_sourceTime req)] /\
              end_frames (trace r) = [snd (req_sourceTime req)])
           (load_requests (trace r))
    /\ (failures (trace r) = [] ->
        result r = Returned tt /\ length (load_requests (trace r)) = 1%nat)
    /\ (forall a b : pyval,
           start_frames (trace r) = [a] ->
           end_frames (trace r) = [b] ->
           Forall (fun req =>
                     req_sourceTime req = (a, b) /\
                     (a <> PNone -> b <> PNone ->
                      fst (req_sourceTime req) <> PNone /\
                      snd (req_sourceTime req) <> PNone))
                  (load_requests (trace r))).
Proof.
  intros w self objects namespaces startFrame_ source connect currentTime s
         Hsrc r.
  assert (Hwin : unpack_source source = inr (PNone, PNone))
    by (destruct Hsrc as [-> | ->]; reflexivity).
  split; [| split].
  - subst r. unfold load. cbn. rewrite Hwin. cbn.
    answers_of h; repeat constructor.
  - apply (load_forwards w self objects namespaces startFrame_ source (PStr s)
             connect currentTime _ _ eq_refl Hwin).
  - subst r. unfold load. cbn. rewrite Hwin. cbn.
    answers_of h; intros a b Ha Hb; try discriminate Ha; try discriminate Hb;
      injection Ha as <-; injection Hb as <-;
      first [ constructor; [split; [reflexivity | auto] | constructor]
            | constructor ].
Qed.

(** C4.  An explicit window of two frame numbers [(s, e)] other than
    [(0, 0)], given as a list or as a tuple, is forwarded as it is: the
    bundle's own frames are not even read. *)
Theorem load_explicit_source_window :
  forall (w : W) (self : AnimItem)
         (objects namespaces startFrame_ source connect currentTime : pyval)
         (o : string) (s e : Z),
    (s, e) <> (0, 0) ->
    source = PList [PInt s; PInt e] \/ source = PTuple [PInt s; PInt e] ->
    let r := run h (load self objects namespaces startFrame_ source (PStr o)
                      connect currentTime) w in
    Forall (fun req => req_sourceTime req = (PInt s, PInt e))
           (load_requests (trace r))
    /\ start_frames (trace r) = [] /\ end_frames (trace r) = []
    /\ (failures (trace r) = [] ->
        result r = Returned tt /\ length (load_requests (trace r)) = 1%nat).
Proof.
  intros w self objects namespaces startFrame_ source connect currentTime o s e
         Hne Hsrc r.
  assert (Hwin : unpack_source source = inr (PInt s, PInt e)).
  { destruct Hsrc as [-> | ->]; [| reflexivity].
    unfold unpack_source.
    destruct (py_eq (PList [PInt s; PInt e]) (PList [PInt 0; PInt 0])) eqn:Heq.
    - apply py_eq_sentinel in Heq. contradiction.
    - reflexivity. }
  split; [| split; [| split]].
  - subst r. unfold load. cbn. rewrite Hwin. cbn. answers_of h; repeat constructor.
  - subst r. unfold load. cbn. rewrite Hwin. cbn. answers_of h; reflexivity.
  - subst r. unfold load. cbn. rewrite Hwin. cbn. answers_of h; reflexivity.
  - apply (load_forwards w self objects namespaces startFrame_ source (PStr o)
             connect currentTime _ _ eq_refl Hwin).
Qed.

(** A component of the window that is [None] is filled from the
    bundle; the other one is kept. *)
Lemma load_fills_missing_start :
  forall (w : W) (self : AnimItem)
         (objects namespaces startFrame_ connect currentTime : pyval)
         (o : string) (e : Z),
    let r := run h (load self objects namespaces startFrame_
                      (PList [PNone; PInt e]) (PStr o) connect currentTime) w in
    Forall (fun req =>
              start_frames (trace r) = [fst (req_sourceTime req)] /\
              snd (req_sourceTime req) = PInt e)
           (load_requests (trace r)).
Proof.
  intros. subst r. unfold load. cbn. answers_of h; repeat constructor.
Qed.

(** C9.  With [objects] absent, the request carries the empty list;
    [namespaces] is forwarded as given, so an absent [namespaces] stays
    [None], and so are [startFrame], [connect] and [currentTime]. *)
Theorem load_objects_default :
  forall (w : W) (self : AnimItem)
         (namespaces startFrame_ source option_ connect currentTime : pyval),
    let r := run h (load self PNone namespaces startFrame_ source option_
                      connect currentTime) w in
    let r' := run h (load self PNone PNone startFrame_ source option_
                       connect currentTime) w in
    Forall (fun req =>
              req_objects req = PList [] /\
              req_namespaces req = namespaces /\
              req_startFrame req = startFrame_ /\
              req_connect req = connect /\
              req_currentTime req = currentTime)
           (load_requests (trace r))
    /\ Forall (fun req => req_objects req = PList [] /\ req_namespaces req = PNone)
              (load_requests (trace r'))
    /\ (forall option' window,
           normalize_option option_ = inr option' ->
           unpack_source source = inr window ->
           failures (trace r') = [] ->
           length (load_requests (trace r')) = 1%nat).
Proof.
  intros w self namespaces startFrame_ source option_ connect currentTime r r'.
  split; [| split].
  - subst r. unfold load. cbn.
    destruct (normalize_option option_) as [x | o']; cbn; [constructor |].
    destruct (unpack_source source) as [x | [a b]]; cbn; [constructor |].
    destruct (is_none a), (is_none b); cbn; answers_of h; repeat constructor.
  - subst r'. unfold load. cbn.
    destruct (normalize_option option_) as [x | o']; cbn; [constructor |].
    destruct (unpack_source source) as [x | [a b]]; cbn; [constructor |].
    destruct (is_none a), (is_none b); cbn; answers_of h; repeat constructor.
  - intros option' window Hopt Hsrc Hf.
    apply (load_forwards w self PNone PNone startFrame_ source option_
             connect currentTime option' window Hopt Hsrc Hf).
Qed.

(** ** [loadOptions] *)

(** Whatever the transfer object answers, the default of [source] is
    built from the answers of this call, a false one ([None], [0])
    replaced by [0]. *)
Lemma loadOptions_returns (w : W) (self : AnimItem) (ds : list descriptor) :
  let r := run h (loadOptions self) w in
  result r = Returned ds ->
  exists s e,
    start_frames (trace r) = [s] /\ end_frames (trace r) = [e] /\
    ds = schema (py_or s (PInt 0)) (py_or e (PInt 0)).
Proof.
  intros r. subst r. unfold loadOptions. cbn. answers_of h; intros Hr;
    try discriminate Hr.
  injection Hr as <-. eauto.
Qed.

(** C8.  [loadOptions] only reads the transfer object: it commits
    nothing, forwards no request and leaves the permanent location as it
    is.  For a bundle that records the frames [s] and [e] it returns
    exactly the four descriptors [connect] (bool, false), [currentTime]
    (bool, true), [source] (range, not persistent, default [[s, e]] as
    read in this very call) and [option] (enum, default ["replace all"],
    items replace, replace all, insert, merge). *)
Theorem loadOptions_schema :
  forall (w : W) (self : AnimItem),
    let r := run h (loadOptions self) w in
    forallb reads_only (trace r) = true
    /\ commits (trace r) = [] /\ load_requests (trace r) = []
    /\ (forall st, permanent_after st (trace r) = st)
    /\ (forall s e : Z,
           start_frames (trace r) = [PInt s] ->
           end_frames (trace r) = [PInt e] ->
           result r = Returned (schema (PInt s) (PInt e))
           /\ length (schema (PInt s) (PInt e)) = 4%nat).
Proof.
  intros w self r.
  assert (Hc : commits (trace r) = [])
    by (subst r; unfold loadOptions; cbn; answers_of h; reflexivity).
  split; [| split; [exact Hc | split; [| split]]].
  - subst r. unfold loadOptions. cbn. answers_of h; reflexivity.
  - subst r. unfold loadOptions. cbn. answers_of h; reflexivity.
  - apply permanent_untouched, Hc.
  - subst r. unfold loadOptions. cbn.
    answers_of h; intros fs fe Hs He; try discriminate Hs; try discriminate He.
    injection Hs as ->. injection He as ->.
    rewrite !py_or_int_zero. split; reflexivity.
Qed.

(** ** [save] *)

(** C1.  [save] is all-or-nothing.  When a staging step raises (the
    temporary directory, the capture from the objects, the metadata, the
    serialization, the list of paths), the call ends with that very
    exception, [BaseItem.save] is not invoked and the permanent location
    is as it was.  When [BaseItem.save] is invoked, it is the last call
    of the run and all seven staging steps, the serialization among
    them, have returned before it. *)
Theorem save_all_or_nothing :
  forall (w : W) (self : AnimItem) (objects : pyval) (path : string)
         (contents : option (list string)) (iconPath : string)
         (fileType startFrame_ endFrame_ bakeConnected metadata : pyval),
    let r := run h (save self objects path contents iconPath fileType
                      startFrame_ endFrame_ bakeConnected metadata) w in
    (forall m x,
        In (m, x) (failures (trace r)) ->
        staging m = true ->
        result r = Raised x
        /\ commits (trace r) = []
        /\ forall st, permanent_after st (trace r) = st)
    /\ (commits (trace r) <> [] ->
        exists staged p cs answer,
          trace r = (staged ++ [Called (BaseSave p cs) answer])%list
          /\ successes staged = staging_steps
          /\ failures staged = []
          /\ commits staged = []).
Proof.
  intros w self objects path contents iconPath fileType startFrame_ endFrame_
         bakeConnected metadata r.
  split.
  - intros m x Hin Hst.
    assert (Hres : result r = Raised x)
      by (eapply failure_propagates; exact Hin).
    assert (Hc : commits (trace r) = []).
    { revert Hin. subst r. unfold save. cbn.
      answers_of h; intros Hin; try reflexivity.
      - destruct Hin as [Heq | []]. injection Heq as <- <-. discriminate Hst.
      - destruct Hin. }
    split; [exact Hres | split; [exact Hc |]].
    apply permanent_untouched, Hc.
  - subst r. unfold save. cbn.
    answers_of h; intros Hc; try (exfalso; apply Hc; reflexivity).
    + eexists [_; _; _; _; _; _; _], _, _, _. cbn. repeat split.
    + eexists [_; _; _; _; _; _; _], _, _, _. cbn. repeat split.
Qed.

(** C5.  The contents handed to [BaseItem.save] are the caller's extra
    contents, then [iconPath] when it is not empty, then the paths the
    transfer object reported; as a set, the extra contents, the icon if
    any and the payload files.  A call that returns has committed exactly
    once. *)
Theorem save_contents_composition :
  forall (w : W) (self : AnimItem) (objects : pyval) (path : string)
         (contents : option (list string)) (iconPath : string)
         (fileType startFrame_ endFrame_ bakeConnected metadata : pyval),
    let r := run h (save self objects path contents iconPath fileType
                      startFrame_ endFrame_ bakeConnected metadata) w in
    let extra := match contents with Some l => l | None => [] end in
    let icon := if String.eqb iconPath "" then [] else [iconPath] in
    Forall (fun c =>
              exists paths,
                reported_paths (trace r) = [paths]
                /\ snd c = (extra ++ icon ++ paths)%list
                /\ forall f, In f (snd c) <->
                             In f extra \/ (iconPath <> "" /\ f = iconPath)
                             \/ In f paths)
           (commits (trace r))
    /\ (result r = Returned tt -> length (commits (trace r)) = 1%nat).
Proof.
  intros w self objects path contents iconPath fileType startFrame_ endFrame_
         bakeConnected metadata r extra icon.
  assert (Hextra : contents_or_empty contents = extra)
    by (destruct contents as [l |]; [apply contents_or_empty_some | reflexivity]).
  assert (Hset : forall paths f,
             In f (extra ++ icon ++ paths)%list <->
             In f extra \/ (iconPath <> "" /\ f = iconPath) \/ In f paths).
  { intros paths f. rewrite !in_app_iff. subst icon.
    destruct (String.eqb_spec iconPath "") as [He | Hne]; cbn; split.
    - intros [H | [[] | H]]; auto.
    - intros [H | [[Hn _] | H]]; auto; contradiction.
    - intros [H | [[H | []] | H]]; auto.
    - intros [H | [[_ ->] | H]]; auto. }
  assert (Hcat : forall paths,
             ((if negb (String.eqb iconPath "")
               then (extra ++ [iconPath])%list else extra) ++ paths)%list
             = (extra ++ icon ++ paths)%list).
  { intros paths. subst icon.
    destruct (String.eqb iconPath ""); cbn; [reflexivity |].
    rewrite <- app_assoc. reflexivity. }
  split.
  - subst r. unfold save. cbn. rewrite Hextra.
    answers_of h; constructor; try constructor.
    all: eexists; cbn; rewrite Hcat; repeat split; apply Hset.
  - subst r. unfold save. cbn.
    answers_of h; intros Hr; try discriminate Hr; reflexivity.
Qed.

(** C6.  For a path that is not empty, [save] hands to [BaseItem.save]
    the path with the extension [.anim], and normalizing is idempotent: a
    path that ends with the extension is kept as it is, and for a path
    [p] that lacks it [save] with [p] and [save] with [p.anim] are the
    same call, committing at [p.anim]. *)
Theorem save_path_extension_idempotent :
  forall (w : W) (self : AnimItem) (objects : pyval) (path : string)
         (contents : option (list string)) (iconPath : string)
         (fileType startFrame_ endFrame_ bakeConnected metadata : pyval),
    path <> "" ->
    let r := run h (save self objects path contents iconPath fileType
                      startFrame_ endFrame_ bakeConnected metadata) w in
    Forall (fun c => fst c = with_extension path) (commits (trace r))
    /\ (result r = Returned tt ->
        map fst (commits (trace r)) = [with_extension path])
    /\ with_extension (with_extension path) = with_extension path
    /\ (endswith path ".anim" = true -> with_extension path = path)
    /\ (endswith path ".anim" = false ->
        with_extension path = path +:+ ".anim"
        /\ with_extension (path +:+ ".anim") = path +:+ ".anim"
        /\ save self objects (path +:+ ".anim") contents iconPath fileType
             startFrame_ endFrame_ bakeConnected metadata
           = save self objects path contents iconPath fileType
               startFrame_ endFrame_ bakeConnected metadata).
Proof.
  intros w self objects path contents iconPath fileType startFrame_ endFrame_
         bakeConnected metadata Hp r.
  split; [| split; [| split; [| split]]].
  - subst r. unfold save. cbn. answers_of h; repeat constructor.
  - subst r. unfold save. cbn.
    answers_of h; intros Hr; try discriminate Hr; reflexivity.
  - apply with_extension_fixed, with_extension_has_extension, Hp.
  - apply with_extension_fixed.
  - intros Hext.
    assert (H1 : with_extension path = path +:+ ".anim")
      by (apply with_extension_appends; assumption).
    assert (H2 : with_extension (path +:+ ".anim") = path +:+ ".anim")
      by (apply with_extension_fixed, endswith_app).
    split; [exact H1 | split; [exact H2 |]].
    unfold save. rewrite H1, H2. reflexivity.
Qed.

(** C10.  With the empty path (the default), no extension is appended:
    [BaseItem.save] receives the empty path, and it does receive it
    whenever the staging steps return. *)
Theorem save_empty_path_forwarded :
  forall (w : W) (self : AnimItem) (objects : pyval)
         (contents : option (list string)) (iconPath : string)
         (fileType startFrame_ endFrame_ bakeConnected metadata : pyval),
    let r := run h (save self objects "" contents iconPath fileType
                      startFrame_ endFrame_ bakeConnected metadata) w in
    with_extension "" = ""
    /\ Forall (fun c => fst c = "") (commits (trace r))
    /\ (successes (trace r) = staging_steps \/
        successes (trace r) = (staging_steps ++ [MBaseSave])%list ->
        map fst (commits (trace r)) = [""]).
Proof.
  intros w self objects contents iconPath fileType startFrame_ endFrame_
         bakeConnected metadata r.
  split; [reflexivity | split].
  - subst r. unfold save. cbn. answers_of h; repeat constructor.
  - subst r. unfold save. cbn.
    answers_of h; intros [Hs | Hs]; try discriminate Hs; reflexivity.
Qed.

End Runs.

(** * The methods on concrete calls *)

Example replay_all_request :
  load_requests (trace replay_all) =
  [ {| req_objects := PList [PStr "pCube1"];
       req_namespaces := PNone;
       req_currentTime := PBool false;
       req_connect := PNone;
       req_option := PStr "replaceCompletely";
       req_startFrame := PNone;
       req_sourceTime := (PInt 0, PInt 200) |} ].
Proof. reflexivity. Qed.

Example replay_merge_request :
  load_requests (trace replay_merge) =
  [ {| req_objects := PList [];
       req_namespaces := PNone;
       req_currentTime := PBool false;
       req_connect := PBool true;
       req_option := PStr "Merge";
       req_startFrame := PNone;
       req_sourceTime := (PInt 50, PInt 100) |} ].
Proof. reflexivity. Qed.

Example save_walk_commit :
  commits (trace (save_walk walk_cycle)) =
  [ ("/lib/char/walk.anim",
     ["/tmp/sequence"; "/tmp/thumbnail.jpg";
      "/tmp/Transfer/transfer.anim/pose.json";
      "/tmp/Transfer/transfer.anim/animation.ma"]) ].
Proof. reflexivity. Qed.

Example save_walk_disk_full :
  result (save_walk disk_full) = Raised (Failure "disk full")
  /\ commits (trace (save_walk disk_full)) = [].
Proof. split; reflexivity. Qed.

(** An option that is not a string has no [lower] either. *)
Example load_integer_option :
  result (run (scripted walk_cycle)
            (load malcolm PNone PNone PNone PNone (PInt 1) PNone (PBool false))
            tt)
  = Raised AttributeError.
Proof. reflexivity. Qed.

(** A window that is a tuple never equals the list [[0, 0]]: the tuple
    [(0, 0)] is forwarded as it is. *)
Example load_tuple_zero :
  map req_sourceTime
      (load_requests
         (trace (run (scripted walk_cycle)
                   (load malcolm PNone PNone PNone (PTuple [PInt 0; PInt 0])
                      (PStr "replace") PNone (PBool false)) tt)))
  = [(PInt 0, PInt 0)].
Proof. reflexivity. Qed.

(** A transfer object without recorded frames: [loadOptions] falls back
    to [[0, 0]]. *)
Example loadOptions_without_frames :
  result (run (scripted {| on_startFrame := inr PNone;
                           on_endFrame := inr PNone;
                           on_load := inr tt;
                           on_fromObjects := inr 4%nat;
                           on_updateMetadata := inr tt;
                           on_save := inr tt;
                           on_paths := inr [];
                           on_commit := inr tt |})
            (loadOptions malcolm) tt)
  = Returned (schema (PInt 0) (PInt 0)).
Proof. reflexivity. Qed.

(** C2: the claim as stated fails.  The option ["Merge"] is forwarded
    with its capital letter, not lower-cased. *)
Lemma load_option_not_lowercased :
  map req_option (load_requests (trace replay_merge)) = [PStr "Merge"]
  /\ lower "Merge" = "merge"
  /\ map req_option (load_requests (trace replay_merge))
     <> [PStr (lower "Merge")].
Proof.
  split; [reflexivity | split; [reflexivity |]].
  cbn. intros H. discriminate H.
Qed.

Lemma load_option_normalization_witness :
  unpack_source PNone = inr (PNone, PNone)
  /\ failures (trace replay_all) = []
  /\ Forall (fun req => req_option req = PStr "replaceCompletely")
            (load_requests (trace replay_all))
  /\ normalize_option (PStr "replaceCompletely") = inr (PStr "replaceCompletely")
  /\ length (load_requests (trace replay_all)) = 1%nat.
Proof.
  destruct (load_option_normalization (scripted walk_cycle) tt malcolm
              (PList [PStr "pCube1"]) PNone PNone PNone PNone (PBool false)
              "Replace All") as (Hfwd & _ & Hidem & Hlive).
  split; [reflexivity | split; [reflexivity |]].
  split; [exact Hfwd | split; [exact Hidem |]].
  exact (Hlive (PNone, PNone) eq_refl eq_refl).
Defined.

(** C3: the claim as stated fails.  With a transfer object that
    answers [None] for its frames, [load] with [source] unset returns
    and the window it has forwarded is [(None, None)]. *)
Lemma load_default_window_none :
  result replay_no_frames = Returned tt
  /\ map req_sourceTime (load_requests (trace replay_no_frames))
     = [(PNone, PNone)]
  /\ ~ Forall (fun req => fst (req_sourceTime req) <> PNone /\
                          snd (req_sourceTime req) <> PNone)
              (load_requests (trace replay_no_frames)).
Proof.
  split; [reflexivity | split; [reflexivity |]].
  intros H. inversion H as [| req l [Hs _] _]. apply Hs. reflexivity.
Qed.

Lemma load_default_source_window_witness :
  (PList [PInt 0; PInt 0] = PNone \/
   PList [PInt 0; PInt 0] = PList [PInt 0; PInt 0])
  /\ failures (trace replay_sentinel) = []
  /\ start_frames (trace replay_sentinel) = [PInt 0]
  /\ end_frames (trace replay_sentinel) = [PInt 200]
  /\ PInt 0 <> PNone /\ PInt 200 <> PNone
  /\ result replay_sentinel = Returned tt
  /\ length (load_requests (trace replay_sentinel)) = 1%nat
  /\ Forall (fun req =>
               req_sourceTime req = (PInt 0, PInt 200) /\
               fst (req_sourceTime req) <> PNone /\
               snd (req_sourceTime req) <> PNone)
            (load_requests (trace replay_sentinel)).
Proof.
  assert (H0 : PInt 0 <> PNone) by (intros H; discriminate H).
  assert (H200 : PInt 200 <> PNone) by (intros H; discriminate H).
  destruct (load_default_source_window (scripted walk_cycle) tt malcolm
              PNone PNone PNone (PList [PInt 0; PInt 0]) PNone (PBool false)
              "replace" (or_intror eq_refl)) as (_ & Hlive & Hwin).
  split; [right; reflexivity |].
  split; [reflexivity | split; [reflexivity | split; [reflexivity |]]].
  split; [exact H0 | split; [exact H200 |]].
  destruct (Hlive eq_refl) as [Hres Hlen].
  split; [exact Hres | split; [exact Hlen |]].
  apply Forall_forall. intros req Hin.
  pose proof (Hwin (PInt 0) (PInt 200) eq_refl eq_refl) as Hall.
  rewrite Forall_forall in Hall.
  destruct (Hall req Hin) as [Heq Hnn].
  split; [exact Heq | exact (Hnn H0 H200)].
Defined.

Lemma load_explicit_source_window_witness :
  (50, 100) <> (0, 0)
  /\ failures (trace replay_merge) = []
  /\ Forall (fun req => req_sourceTime req = (PInt 50, PInt 100))
            (load_requests (trace replay_merge))
  /\ start_frames (trace replay_merge) = []
  /\ end_frames (trace replay_merge) = []
  /\ result replay_merge = Returned tt
  /\ length (load_requests (trace replay_merge)) = 1%nat.
Proof.
  assert (Hne : (50, 100) <> (0, 0)) by (intros H; discriminate H).
  destruct (load_explicit_source_window (scripted walk_cycle) tt malcolm
              PNone PNone PNone (PList [PInt 50; PInt 100]) (PBool true)
              (PBool false) "Merge" 50 100 Hne (or_introl eq_refl))
    as (Hwin & Hs & He & Hlive).
  split; [exact Hne | split; [reflexivity |]].
  split; [exact Hwin | split; [exact Hs | split; [exact He |]]].
  exact (Hlive eq_refl).
Defined.

Lemma load_objects_default_witness :
  normalize_option (PStr "Merge") = inr (PStr "Merge")
  /\ unpack_source (PList [PInt 50; PInt 100]) = inr (PInt 50, PInt 100)
  /\ failures (trace replay_merge) = []
  /\ Forall (fun req => req_objects req = PList [] /\ req_namespaces req = PNone)
            (load_requests (trace replay_merge))
  /\ length (load_requests (trace replay_merge)) = 1%nat.
Proof.
  destruct (load_objects_default (scripted walk_cycle) tt malcolm
              PNone PNone (PList [PInt 50; PInt 100]) (PStr "Merge")
              (PBool true) (PBool false)) as (_ & Hreq & Hlive).
  split; [reflexivity | split; [reflexivity | split; [reflexivity |]]].
  split; [exact Hreq |].
  exact (Hlive _ _ eq_refl eq_refl eq_refl).
Defined.

Lemma loadOptions_schema_witness :
  start_frames (trace (run (scripted walk_cycle) (loadOptions malcolm) tt))
  = [PInt 0]
  /\ end_frames (trace (run (scripted walk_cycle) (loadOptions malcolm) tt))
     = [PInt 200]
  /\ result (run (scripted walk_cycle) (loadOptions malcolm) tt)
     = Returned (schema (PInt 0) (PInt 200))
  /\ length (schema (PInt 0) (PInt 200)) = 4%nat.
Proof.
  destruct (loadOptions_schema (scripted walk_cycle) tt malcolm)
    as (_ & _ & _ & _ & Hschema).
  split; [reflexivity | split; [reflexivity |]].
  exact (Hschema 0 200 eq_refl eq_refl).
Defined.

Lemma save_all_or_nothing_witness :
  In (MSave, Failure "disk full") (failures (trace (save_walk disk_full)))
  /\ staging MSave = true
  /\ result (save_walk disk_full) = Raised (Failure "disk full")
  /\ commits (trace (save_walk disk_full)) = []
  /\ (forall st, permanent_after st (trace (save_walk disk_full)) = st)
  /\ commits (trace (save_walk walk_cycle)) <> []
  /\ exists staged p cs answer,
       trace (save_walk walk_cycle)
       = (staged ++ [Called (BaseSave p cs) answer])%list
       /\ successes staged = staging_steps
       /\ failures staged = []
       /\ commits staged = [].
Proof.
  assert (Hin : In (MSave, Failure "disk full")
                   (failures (trace (save_walk disk_full))))
    by (left; reflexivity).
  assert (Hc : commits (trace (save_walk walk_cycle)) <> [])
    by (intros H; discriminate H).
  destruct (save_all_or_nothing (scripted disk_full) tt malcolm
              (PList [PStr "pCube1"]) "/lib/char/walk"
              (Some ["/tmp/sequence"]) "/tmp/thumbnail.jpg" (PStr "mayaAscii")
              (PInt 0) (PInt 200) (PBool false) PNone) as [Hfail _].
  destruct (save_all_or_nothing (scripted walk_cycle) tt malcolm
              (PList [PStr "pCube1"]) "/lib/char/walk"
              (Some ["/tmp/sequence"]) "/tmp/thumbnail.jpg" (PStr "mayaAscii")
              (PInt 0) (PInt 200) (PBool false) PNone) as [_ Hlast].
  destruct (Hfail MSave (Failure "disk full") Hin eq_refl) as (Hr & Hn & Hp).
  split; [exact Hin | split; [reflexivity |]].
  split; [exact Hr | split; [exact Hn | split; [exact Hp |]]].
  split; [exact Hc | exact (Hlast Hc)].
Defined.

Lemma save_contents_composition_witness :
  result (save_walk walk_cycle) = Returned tt
  /\ length (commits (trace (save_walk walk_cycle))) = 1%nat
  /\ Forall (fun c =>
               exists paths,
                 reported_paths (trace (save_walk walk_cycle)) = [paths]
                 /\ snd c = (["/tmp/sequence"] ++ ["/tmp/thumbnail.jpg"]
                             ++ paths)%list
                 /\ forall f, In f (snd c) <->
                              In f ["/tmp/sequence"]
                              \/ ("/tmp/thumbnail.jpg" <> ""
                                  /\ f = "/tmp/thumbnail.jpg")
                              \/ In f paths)
            (commits (trace (save_walk walk_cycle))).
Proof.
  destruct (save_contents_composition (scripted walk_cycle) tt malcolm
              (PList [PStr "pCube1"]) "/lib/char/walk"
              (Some ["/tmp/sequence"]) "/tmp/thumbnail.jpg" (PStr "mayaAscii")
              (PInt 0) (PInt 200) (PBool false) PNone) as [Hcomp Honce].
  split; [reflexivity | split; [exact (Honce eq_refl) | exact Hcomp]].
Defined.

Lemma save_path_extension_idempotent_witness :
  "/lib/char/walk" <> ""
  /\ endswith "/lib/char/walk" ".anim" = false
  /\ result (save_walk walk_cycle) = Returned tt
  /\ map fst (commits (trace (save_walk walk_cycle)))
     = [with_extension "/lib/char/walk"]
  /\ with_extension "/lib/char/walk" = "/lib/char/walk.anim"
  /\ with_extension "/lib/char/walk.anim" = "/lib/char/walk.anim".
Proof.
  assert (Hp : "/lib/char/walk" <> "") by (intros H; discriminate H).
  destruct (save_path_extension_idempotent (scripted walk_cycle) tt malcolm
              (PList [PStr "pCube1"]) "/lib/char/walk"
              (Some ["/tmp/sequence"]) "/tmp/thumbnail.jpg" (PStr "mayaAscii")
              (PInt 0) (PInt 200) (PBool false) PNone Hp)
    as (_ & Hret & _ & _ & Happ).
  destruct (Happ eq_refl) as (H1 & H2 & _).
  split; [exact Hp | split; [reflexivity | split; [reflexivity |]]].
  split; [exact (Hret eq_refl) | split; [exact H1 | exact H2]].
Defined.

Lemma save_empty_path_forwarded_witness :
  successes (trace save_nowhere) = (staging_steps ++ [MBaseSave])%list
  /\ map fst (commits (trace save_nowhere)) = [""].
Proof.
  destruct (save_empty_path_forwarded (scripted walk_cycle) tt malcolm
              (PList [PStr "pCube1"]) (Some ["/tmp/sequence"])
              "/tmp/thumbnail.jpg" (PStr "mayaAscii") (PInt 0) (PInt 200)
              (PBool false) PNone) as (_ & _ & Hfwd).
  split; [reflexivity | exact (Hfwd (or_intror eq_refl))].
Defined.

(** * More about [load], [loadOptions] and [save] *)

Lemma py_eq_sentinel_length (l : list pyval) :
  length l <> 2%nat -> py_eq (PList l) (PList [PInt 0; PInt 0]) = false.
Proof.
  destruct l as [| a [| b [| c l]]]; cbn; intros Hlen; try reflexivity.
  - apply andb_false_r.
  - congruence.
  - rewrite !andb_false_r. reflexivity.
Qed.

Lemma unpack2_length (l : list pyval) :
  length l <> 2%nat ->
  unpack2 (PList l) = inl ValueError /\ unpack2 (PTuple l) = inl ValueError.
Proof.
  destruct l as [| a [| b [| c l]]]; cbn; intros Hlen; try (split; reflexivity).
  congruence.
Qed.

Lemma py_truthy_not_none (v : pyval) : py_truthy v = true -> v <> PNone.
Proof. intros Ht ->. discriminate Ht. Qed.

Lemma py_or_not_none (v : pyval) : py_or v (PInt 0) <> PNone.
Proof.
  unfold py_or. destruct (py_truthy v) eqn:Ht.
  - apply py_truthy_not_none, Ht.
  - discriminate.
Qed.

Lemma lower_replaceCompletely :
  String.eqb (lower "replaceCompletely") "replace all" = false.
Proof. reflexivity. Qed.

Section MoreRuns.
Context {W : Type} (h : handler W).

(** X1.  A list or tuple given as [source] that is not empty and does
    not have exactly two elements cannot be unpacked: [load] raises
    [ValueError] right after the line that announces the load, before any
    collaborator is called. *)
Theorem load_malformed_source_raises :
  forall (w : W) (self : AnimItem)
         (objects namespaces startFrame_ source connect currentTime : pyval)
         (o : string) (l : list pyval),
    l <> [] -> length l <> 2%nat ->
    source = PList l \/ source = PTuple l ->
    run h (load self objects namespaces startFrame_ source (PStr o)
             connect currentTime) w
    = {| result := Raised ValueError;
         trace := [Logged ("Loading: " +:+ path self)];
         final := w |}.
Proof.
  intros w self objects namespaces startFrame_ source connect currentTime o l
         Hne Hlen Hsrc.
  assert (Hwin : unpack_source source = inl ValueError).
  { destruct (unpack2_length l Hlen) as [Hl Ht].
    unfold unpack_source.
    destruct Hsrc as [-> | ->].
    - rewrite (py_eq_sentinel_length l Hlen), Hl.
      destruct l; [congruence | reflexivity].
    - rewrite Ht. destruct l; [congruence | reflexivity]. }
  unfold load. cbn. rewrite Hwin. reflexivity.
Qed.

(** X2.  A number given as [source] (the type the docstring of [load]
    names) is taken for "unset" when it is [0] or [False], and cannot be
    unpacked otherwise: [load] raises [TypeError] before any collaborator
    is called. *)
Theorem load_number_source :
  forall (w : W) (self : AnimItem)
         (objects namespaces startFrame_ connect currentTime : pyval)
         (o : string) (z : Z),
    (z <> 0 ->
     run h (load self objects namespaces startFrame_ (PInt z) (PStr o)
              connect currentTime) w
     = {| result := Raised TypeError;
          trace := [Logged ("Loading: " +:+ path self)];
          final := w |})
    /\ run h (load self objects namespaces startFrame_ (PBool true) (PStr o)
                connect currentTime) w
       = {| result := Raised TypeError;
            trace := [Logged ("Loading: " +:+ path self)];
            final := w |}
    /\ run h (load self objects namespaces startFrame_ (PInt 0) (PStr o)
                connect currentTime) w
       = run h (load self objects namespaces startFrame_ PNone (PStr o)
                  connect currentTime) w.
Proof.
  intros w self objects namespaces startFrame_ connect currentTime o z.
  split; [| split]; try reflexivity.
  intros Hz. unfold load, unpack_source. cbn.
  destruct (Z.eqb_spec z 0) as [-> | _]; [congruence | reflexivity].
Qed.

(** X3.  The two log lines bracket the replay: every call of [load]
    first logs "Loading: <path>"; "Loaded: <path>" is logged exactly when
    the call returns, and it is then the only other line. *)
Theorem load_log_bracket :
  forall (w : W) (self : AnimItem)
         (objects namespaces startFrame_ source option_ connect currentTime
          : pyval),
    let r := run h (load self objects namespaces startFrame_ source option_
                      connect currentTime) w in
    (result r = Returned tt /\
     logged (trace r) = ["Loading: " +:+ path self; "Loaded: " +:+ path self])
    \/ (exists x, result r = Raised x /\
                  logged (trace r) = ["Loading: " +:+ path self]).
Proof.
  intros w self objects namespaces startFrame_ source option_ connect
         currentTime r.
  subst r. unfold load. cbn.
  destruct (normalize_option option_) as [x | o']; cbn; [right; eauto |].
  destruct (unpack_source source) as [x | [a b]]; cbn; [right; eauto |].
  destruct (is_none a), (is_none b); cbn; answers_of h;
    first [left; split; reflexivity | right; eauto].
Qed.

(** X4.  Every false value given as [source] (the empty list or tuple,
    [0], [False], the empty string) and every value equal to [[0, 0]]
    (such as [[False, False]]) is taken for "unset": the window forwarded
    is the one read from the bundle in this call. *)
Theorem load_false_source_uses_bundle :
  forall (w : W) (self : AnimItem)
         (objects namespaces startFrame_ source connect currentTime : pyval)
         (o : string),
    py_truthy source = false \/
    py_eq source (PList [PInt 0; PInt 0]) = true ->
    let r := run h (load self objects namespaces startFrame_ source (PStr o)
                      connect currentTime) w in
    r = run h (load self objects namespaces startFrame_ PNone (PStr o)
                 connect currentTime) w
    /\ Forall (fun req =>
                 start_frames (trace r) = [fst (req_sourceTime req)] /\
                 end_frames (trace r) = [snd (req_sourceTime req)])
              (load_requests (trace r)).
Proof.
  intros w self objects namespaces startFrame_ source connect currentTime o
         Hsrc r.
  assert (Hwin : unpack_source source = inr (PNone, PNone)).
  { unfold unpack_source. destruct Hsrc as [-> | ->].
    - reflexivity.
    - rewrite andb_false_r. reflexivity. }
  split.
  - subst r. unfold load. cbn. rewrite Hwin. reflexivity.
  - subst r. unfold load. cbn. rewrite Hwin. cbn.
    answers_of h; repeat constructor.
Qed.

(** X5.  A window with one component [None] is completed from the
    bundle: with [[None, e]] the start frame is read from the bundle and
    [e] is kept without the end frame being read; with [[s, None]] it is
    the other way round.  In both cases the frame is read and the request
    is forwarded whenever no collaborator raises. *)
Theorem load_fills_missing_component :
  forall (w : W) (self : AnimItem)
         (objects namespaces startFrame_ connect currentTime : pyval)
         (o : string) (z : Z),
    let r1 := run h (load self objects namespaces startFrame_
                       (PList [PNone; PInt z]) (PStr o) connect currentTime)
                  w in
    let r2 := run h (load self objects namespaces startFrame_
                       (PList [PInt z; PNone]) (PStr o) connect currentTime)
                  w in
    (Forall (fun req =>
               start_frames (trace r1) = [fst (req_sourceTime req)] /\
               snd (req_sourceTime req) = PInt z)
            (load_requests (trace r1))
     /\ end_frames (trace r1) = []
     /\ (failures (trace r1) = [] ->
         result r1 = Returned tt
         /\ length (start_frames (trace r1)) = 1%nat
         /\ length (load_requests (trace r1)) = 1%nat))
    /\ (Forall (fun req =>
                  fst (req_sourceTime req) = PInt z /\
                  end_frames (trace r2) = [snd (req_sourceTime req)])
               (load_requests (trace r2))
        /\ start_frames (trace r2) = []
        /\ (failures (trace r2) = [] ->
            result r2 = Returned tt
            /\ length (end_frames (trace r2)) = 1%nat
            /\ length (load_requests (trace r2)) = 1%nat)).
Proof.
  intros.
  assert (Hwin : unpack_source (PList [PInt z; PNone]) = inr (PInt z, PNone))
    by (unfold unpack_source; cbn; destruct (z =? 0); reflexivity).
  subst r1 r2. unfold load. cbn. rewrite Hwin. cbn.
  split; (split; [| split]); answers_of h;
    try (intros Hf; try discriminate Hf; repeat split);
    repeat constructor.
Qed.

(** X6.  Whatever [option] is given, an option that reaches
    [TransferObject.load] is a string, and never the label
    ["replace all"] in any case. *)
Theorem load_never_forwards_label :
  forall (w : W) (self : AnimItem)
         (objects namespaces startFrame_ source option_ connect currentTime
          : pyval),
    let r := run h (load self objects namespaces startFrame_ source option_
                      connect currentTime) w in
    Forall (fun req =>
              exists o, req_option req = PStr o /\
                        String.eqb (lower o) "replace all" = false)
           (load_requests (trace r)).
Proof.
  intros w self objects namespaces startFrame_ source option_ connect
         currentTime r.
  subst r. unfold load. cbn.
  destruct option_ as [| b | z | s | l | l]; cbn; try constructor.
  assert (Ho : exists o,
             (if String.eqb (lower s) "replace all"
              then PStr "replaceCompletely" else PStr s) = PStr o /\
             String.eqb (lower o) "replace all" = false).
  { destruct (String.eqb (lower s) "replace all") eqn:Hs.
    - exists "replaceCompletely". split; reflexivity.
    - exists s. split; [reflexivity | exact Hs]. }
  destruct (unpack_source source) as [x | [a b]]; cbn; [constructor |].
  destruct (is_none a), (is_none b); cbn; answers_of h;
    repeat constructor; exact Ho.
Qed.

(** X7.  An exception raised by a collaborator during [load] is the
    outcome of [load]; unless it comes from [TransferObject.load] itself
    no request has been forwarded; and "Loaded" is not logged. *)
Theorem load_failure_propagates :
  forall (w : W) (self : AnimItem)
         (objects namespaces startFrame_ source option_ connect currentTime
          : pyval) (m : method) (x : exn),
    let r := run h (load self objects namespaces startFrame_ source option_
                      connect currentTime) w in
    In (m, x) (failures (trace r)) ->
    result r = Raised x
    /\ (m <> MLoad -> load_requests (trace r) = [])
    /\ logged (trace r) = ["Loading: " +:+ path self].
Proof.
  intros w self objects namespaces startFrame_ source option_ connect
         currentTime m x r Hin.
  split; [eapply failure_propagates; exact Hin |].
  revert Hin. subst r. unfold load. cbn.
  destruct (normalize_option option_) as [y | o']; cbn; [intros [] |].
  destruct (unpack_source source) as [y | [a b]]; cbn; [intros [] |].
  destruct (is_none a), (is_none b); cbn; answers_of h; intros Hin;
    try (destruct Hin as [Heq | []]; injection Heq as <- <-);
    try (destruct Hin; fail);
    (split; [intros Hm; try reflexivity; congruence | reflexivity]).
Qed.

(** X8.  [load] forwards at most one request, calls nothing but the
    accessors and [TransferObject.load], and so leaves the permanent
    location as it is. *)
Theorem load_never_commits :
  forall (w : W) (self : AnimItem)
         (objects namespaces startFrame_ source option_ connect currentTime
          : pyval),
    let r := run h (load self objects namespaces startFrame_ source option_
                      connect currentTime) w in
    (length (load_requests (trace r)) <= 1)%nat
    /\ Forall (fun m => accessor m = true \/ m = MLoad) (calls (trace r))
    /\ commits (trace r) = []
    /\ forall st, permanent_after st (trace r) = st.
Proof.
  intros w self objects namespaces startFrame_ source option_ connect
         currentTime r.
  assert (H : (length (load_requests (trace r)) <= 1)%nat
              /\ Forall (fun m => accessor m = true \/ m = MLoad)
                        (calls (trace r))
              /\ commits (trace r) = []).
  { subst r. unfold load. cbn.
    destruct (normalize_option option_) as [y | o']; cbn;
      [repeat split; auto; constructor |].
    destruct (unpack_source source) as [y | [a b]]; cbn;
      [repeat split; auto; constructor |].
    destruct (is_none a), (is_none b); cbn; answers_of h;
      (split; [cbn; lia | split; [| reflexivity]]);
      repeat (constructor;
              [first [left; reflexivity | right; reflexivity] |]);
      constructor. }
  destruct H as (H1 & H2 & H3).
  repeat split; try assumption.
  apply permanent_untouched, H3.
Qed.

(** X9.  When [loadOptions] returns, the default of [source] holds, for
    each frame, the bundle's answer if it is true and [0] otherwise; in
    particular neither component is ever [None]. *)
Theorem loadOptions_default_never_none :
  forall (w : W) (self : AnimItem) (ds : list descriptor),
    let r := run h (loadOptions self) w in
    result r = Returned ds ->
    exists s e a b,
      start_frames (trace r) = [s] /\ end_frames (trace r) = [e]
      /\ a = (if py_truthy s then s else PInt 0)
      /\ b = (if py_truthy e then e else PInt 0)
      /\ ds = schema a b
      /\ a <> PNone /\ b <> PNone.
Proof.
  intros w self ds r Hr.
  destruct (loadOptions_returns h w self ds Hr) as (s & e & Hs & He & Hds).
  exists s, e, (py_or s (PInt 0)), (py_or e (PInt 0)).
  repeat split; try assumption; apply py_or_not_none.
Qed.

(** X10.  The defaults of [loadOptions] round-trip through [load]: for
    a bundle that answers the frames [s] and [e], calling [load] with the
    default [source] and the default [option] of the schema forwards the
    window [(s, e)] and the option [replaceCompletely], also when the
    range is [[0, 0]] and [load] takes it for "unset". *)
Theorem loadOptions_defaults_round_trip :
  forall (self : AnimItem) (s e : Z),
    (forall t w, fst (h _ (TOStartFrame t) w) = inr (PInt s)) ->
    (forall t w, fst (h _ (TOEndFrame t) w) = inr (PInt e)) ->
    forall (w w' : W) (ds : list descriptor) (dsource doption : descriptor)
           (objects namespaces startFrame_ connect currentTime : pyval),
      result (run h (loadOptions self) w) = Returned ds ->
      ds !! 2%nat = Some dsource ->
      ds !! 3%nat = Some doption ->
      let r := run h (load self objects namespaces startFrame_
                        (d_default dsource) (d_default doption)
                        connect currentTime) w' in
      Forall (fun req => req_sourceTime req = (PInt s, PInt e) /\
                         req_option req = PStr "replaceCompletely")
             (load_requests (trace r))
      /\ (failures (trace r) = [] ->
          result r = Returned tt /\ length (load_requests (trace r)) = 1%nat).
Proof.
  intros self s e Hs He w w' ds dsource doption objects namespaces startFrame_
         connect currentTime Hr Hsrc Hopt r.
  destruct (loadOptions_returns h w self ds Hr) as (s0 & e0 & Hs0 & He0 & ->).
  assert (Hds : d_default dsource = PList [PInt s; PInt e]
                /\ d_default doption = PStr "replace all").
  { revert Hs0 He0 Hsrc Hopt. unfold loadOptions. cbn.
    destruct (h _ TransferObject w) as [[? | t] w1]; cbn; [discriminate |].
    pose proof (Hs t w1) as Hst.
    destruct (h _ (TOStartFrame t) w1) as [[? | v] w2]; cbn in *;
      [discriminate |].
    destruct (h _ TransferObject w2) as [[? | t'] w3]; cbn; [discriminate |].
    pose proof (He t' w3) as Het.
    destruct (h _ (TOEndFrame t') w3) as [[? | v'] w4]; cbn in *;
      [discriminate |].
    intros Hs0 He0 Hsrc Hopt.
    injection Hst as ->. injection Het as ->.
    injection Hs0 as <-. injection He0 as <-.
    injection Hsrc as <-. injection Hopt as <-.
    cbn. rewrite !py_or_int_zero. split; reflexivity. }
  destruct Hds as [Hd1 Hd2].
  assert (Hwin : unpack_source (d_default dsource) = inr (PNone, PNone)
                 \/ unpack_source (d_default dsource) = inr (PInt s, PInt e)).
  { rewrite Hd1. unfold unpack_source.
    destruct (py_eq (PList [PInt s; PInt e]) (PList [PInt 0; PInt 0]));
      [left | right]; reflexivity. }
  split.
  - subst r. unfold load. cbn. rewrite Hd2. cbn.
    destruct Hwin as [-> | ->]; cbn.
    + destruct (h _ TransferObject w') as [[? | t] w1]; cbn; [constructor |].
      pose proof (Hs t w1) as Hst.
      destruct (h _ (TOStartFrame t) w1) as [[? | v] w2]; cbn in *;
        [constructor |].
      destruct (h _ TransferObject w2) as [[? | t'] w3]; cbn; [constructor |].
      pose proof (He t' w3) as Het.
      destruct (h _ (TOEndFrame t') w3) as [[? | v'] w4]; cbn in *;
        [constructor |].
      injection Hst as ->. injection Het as ->.
      answers_of h; repeat constructor.
    + answers_of h; repeat constructor.
  - assert (Hn : normalize_option (d_default doption)
                 = inr (PStr "replaceCompletely"))
      by (rewrite Hd2; reflexivity).
    destruct Hwin as [Hw | Hw].
    + apply (load_forwards h w' self objects namespaces startFrame_
               (d_default dsource) (d_default doption) connect currentTime
               (PStr "replaceCompletely") (PNone, PNone) Hn Hw).
    + apply (load_forwards h w' self objects namespaces startFrame_
               (d_default dsource) (d_default doption) connect currentTime
               (PStr "replaceCompletely") (PInt s, PInt e) Hn Hw).
Qed.

(** X11.  [save] serializes into the staging directory only: the
    temporary directory is acquired as [TempDir("Transfer", clean=True)],
    [fromObjects] and [updateMetadata] get [objects] and [metadata] as
    given, and [anim.save] is called with the file [transfer.anim] inside
    the directory the temporary directory answered, the file type, the
    window [[startFrame, endFrame]] and [bakeConnected] as given; the
    target [path] plays no part in it. *)
Theorem save_serializes_into_staging :
  forall (w : W) (self : AnimItem) (objects : pyval) (path : string)
         (contents : option (list string)) (iconPath : string)
         (fileType startFrame_ endFrame_ bakeConnected metadata : pyval),
    let r := run h (save self objects path contents iconPath fileType
                      startFrame_ endFrame_ bakeConnected metadata) w in
    tempdir_requests (trace r) = [("Transfer", true)]
    /\ Forall (eq objects) (captures (trace r))
    /\ Forall (eq metadata) (metadata_updates (trace r))
    /\ Forall (fun s =>
                 exists dir,
                   tempdir_paths (trace r) = [dir] /\
                   s = (dir +:+ "/transfer.anim", fileType,
                        PList [startFrame_; endFrame_], bakeConnected))
              (serializations (trace r))
    /\ (result r = Returned tt ->
        length (serializations (trace r)) = 1%nat).
Proof.
  intros w self objects path contents iconPath fileType startFrame_ endFrame_
         bakeConnected metadata r.
  subst r. unfold save. cbn.
  answers_of h; repeat split; repeat constructor; eauto;
    try (intros Hr; discriminate Hr).
Qed.

(** X12.  [save] takes its eight steps in a fixed order, each at most
    once, and stops at the first one that raises: the calls of a run are
    a prefix of the staging steps followed by the commit, the call
    returns exactly when all eight returned, and nothing is retried. *)
Theorem save_steps_in_order :
  forall (w : W) (self : AnimItem) (objects : pyval) (path : string)
         (contents : option (list string)) (iconPath : string)
         (fileType startFrame_ endFrame_ bakeConnected metadata : pyval),
    let r := run h (save self objects path contents iconPath fileType
                      startFrame_ endFrame_ bakeConnected metadata) w in
    (exists n, calls (trace r) = firstn n (staging_steps ++ [MBaseSave])%list)
    /\ (result r = Returned tt <->
        successes (trace r) = (staging_steps ++ [MBaseSave])%list)
    /\ (length (failures (trace r)) <= 1)%nat
    /\ (length (commits (trace r)) <= 1)%nat.
Proof.
  intros w self objects path contents iconPath fileType startFrame_ endFrame_
         bakeConnected metadata r.
  subst r. unfold save. cbn.
  answers_of h;
    repeat match goal with u : unit |- _ => destruct u end;
    (split;
     [ first [ exists 1%nat; reflexivity | exists 2%nat; reflexivity
             | exists 3%nat; reflexivity | exists 4%nat; reflexivity
             | exists 5%nat; reflexivity | exists 6%nat; reflexivity
             | exists 7%nat; reflexivity | exists 8%nat; reflexivity ]
     | split;
       [ split; intros H; cbn in H; first [reflexivity | discriminate H]
       | split; cbn; lia ] ]).
Qed.

End MoreRuns.

Section WidgetRuns.
Context {W : Type} (h : handler W).

(** X18.  [AnimCreateWidget.save] ignores its [iconPath] argument: the
    icon committed is the widget's own.  It hands to [BaseItem.save] the
    path with its extension and, in this order, the directory of the
    captured sequence if there is one, the widget's icon if it is not
    empty and the paths the transfer object reported; the serialization
    gets the text of the combo box, the window of the two line edits and
    the check box as [0] or [1]. *)
Theorem widget_save_composition :
  forall (dirname : string -> string) (w : W) (self : AnimCreateWidget)
         (objects : pyval) (path_ iconPath_ iconPath' : string)
         (metadata : pyval),
    let r := run h (AnimCreateWidget_save dirname self objects path_ iconPath_
                      metadata) w in
    let sequence :=
      match sequencePath self with
      | Some s => if String.eqb s "" then [] else [dirname s]
      | None => []
      end in
    let icon := if String.eqb (iconPath self) "" then [] else [iconPath self] in
    AnimCreateWidget_save dirname self objects path_ iconPath' metadata
    = AnimCreateWidget_save dirname self objects path_ iconPath_ metadata
    /\ Forall (fun c =>
                 fst c = with_extension path_ /\
                 exists paths,
                   reported_paths (trace r) = [paths] /\
                   snd c = (sequence ++ icon ++ paths)%list)
              (commits (trace r))
    /\ Forall (fun s =>
                 exists dir bake,
                   s = (dir, PStr (ui_fileType self),
                        PList [ui_startFrame self; ui_endFrame self],
                        PInt bake)
                   /\ (bake = 0 \/ bake = 1))
              (serializations (trace r))
    /\ (result r = Returned tt -> length (commits (trace r)) = 1%nat).
Proof.
  intros dirname w self objects path_ iconPath_ iconPath' metadata r sequence
         icon.
  split; [reflexivity |].
  assert (Hseq : contents_or_empty
                   match sequencePath self with
                   | Some (String c s) => Some [dirname (String c s)]
                   | Some EmptyString | None => None
                   end = sequence).
  { subst sequence. destruct (sequencePath self) as [[| c s] |]; reflexivity. }
  assert (Hcat : forall paths,
             ((if negb (String.eqb (iconPath self) "")
               then (sequence ++ [iconPath self])%list else sequence)
              ++ paths)%list
             = (sequence ++ icon ++ paths)%list).
  { intros paths. subst icon.
    destruct (String.eqb (iconPath self) ""); cbn; [reflexivity |].
    rewrite <- app_assoc. reflexivity. }
  subst r. unfold AnimCreateWidget_save, save. cbn. rewrite Hseq.
  split; [| split].
  - answers_of h; repeat constructor.
    all: eexists; split; [reflexivity | apply Hcat].
  - answers_of h; repeat constructor.
    all: eexists _, _; split; [reflexivity |];
      destruct (ui_bakeChecked self); [right | left]; reflexivity.
  - answers_of h; intros Hr; try discriminate Hr; reflexivity.
Qed.

End WidgetRuns.

(** * [optionsChanged] and [info] *)

(** X13.  For a string option [optionsChanged] computes
    [replaceCompletely] for the label ["replace all"] and for
    [replaceCompletely] itself, whatever [connect] is, and otherwise the
    option, with the suffix [Connect] exactly when [connect] is true. *)
Theorem options_basename_suffix :
  forall (options : gmap string pyval) (s : string),
    options !! "option" = Some (PStr s) ->
    let connect := default PNone (options !! "connect") in
    ((s = "replace all" \/ s = "replaceCompletely") ->
     options_basename options = inr (PStr "replaceCompletely"))
    /\ (s <> "replace all" -> s <> "replaceCompletely" ->
        options_basename options
        = inr (PStr (if py_truthy connect then s +:+ "Connect" else s))).
Proof.
  intros options s Hopt connect. subst connect. unfold options_basename.
  rewrite Hopt.
  remember (default PNone (options !! "connect")) as connect eqn:Hc.
  cbn. split.
  - intros [-> | ->]; cbn; rewrite andb_false_r; reflexivity.
  - intros H1 H2.
    destruct (String.eqb_spec s "replace all") as [-> | _]; [congruence |].
    cbn.
    destruct (String.eqb_spec s "replaceCompletely") as [-> | _];
      [congruence |].
    destruct (py_truthy connect); reflexivity.
Qed.

(** X14.  Without an option, [optionsChanged] raises [TypeError] when
    [connect] is true ([None] cannot take the suffix) and computes [None]
    when it is not; the same holds for a number as option. *)
Theorem options_basename_without_option :
  forall (options : gmap string pyval),
    options !! "option" = None ->
    let connect := default PNone (options !! "connect") in
    (py_truthy connect = true -> options_basename options = inl TypeError)
    /\ (py_truthy connect = false -> options_basename options = inr PNone).
Proof.
  intros options Hopt connect. subst connect. unfold options_basename.
  rewrite Hopt.
  remember (default PNone (options !! "connect")) as connect eqn:Hc.
  cbn. split; intros ->; reflexivity.
Qed.

(** X15.  [optionsChanged] compares the label as it is, [load] compares
    it lower-cased: a label such as ["Replace All"] is
    [replaceCompletely] for [load] and stays as it is for
    [optionsChanged]. *)
Theorem options_basename_case_sensitive :
  forall (options : gmap string pyval) (s : string),
    String.eqb (lower s) "replace all" = true ->
    s <> "replace all" ->
    options !! "option" = Some (PStr s) ->
    options !! "connect" = None ->
    normalize_option (PStr s) = inr (PStr "replaceCompletely")
    /\ options_basename options = inr (PStr s).
Proof.
  intros options s Hlow Hs Hopt Hcon. split.
  - unfold normalize_option. cbn. rewrite Hlow. reflexivity.
  - unfold options_basename. rewrite Hopt, Hcon. cbn.
    destruct (String.eqb_spec s "replace all"); [congruence | reflexivity].
Qed.

(** X16.  [info] puts the row "Start frame" and, right after it, the
    row "End frame" behind the first three rows of the base item, or at
    the end when there are fewer than three; the rows of the base item
    keep their order, and the list grows by two. *)
Theorem info_with_frames_shape :
  forall (info : list (gmap string pyval)) (startFrame endFrame : string),
    info_with_frames info startFrame endFrame
    = (firstn 3 info
       ++ [info_row "Start frame" startFrame; info_row "End frame" endFrame]
       ++ skipn 3 info)%list
    /\ length (info_with_frames info startFrame endFrame)
       = S (S (length info)).
Proof.
  intros info startFrame endFrame.
  assert (Hshape : info_with_frames info startFrame endFrame
                   = (firstn 3 info
                      ++ [info_row "Start frame" startFrame;
                          info_row "End frame" endFrame]
                      ++ skipn 3 info)%list)
    by (destruct info as [| a [| b [| c rest]]]; reflexivity).
  split; [exact Hshape |].
  destruct info as [| a [| b [| c rest]]]; reflexivity.
Qed.

(** X17.  With three rows or more from the base item, the frame rows
    are the rows 3 and 4 of [info], the first three rows stay and the
    others move down by two; a frame row holds the frame under the key
    ["value"]. *)
Theorem info_with_frames_lookup :
  forall (info : list (gmap string pyval)) (startFrame endFrame : string),
    (3 <= length info)%nat ->
    let rows := info_with_frames info startFrame endFrame in
    rows !! 3%nat = Some (info_row "Start frame" startFrame)
    /\ rows !! 4%nat = Some (info_row "End frame" endFrame)
    /\ (forall i, (i < 3)%nat -> rows !! i = info !! i)
    /\ (forall i, (3 <= i)%nat -> rows !! (i + 2)%nat = info !! i)
    /\ info_row "Start frame" startFrame !! "value" = Some (PStr startFrame)
    /\ info_row "End frame" endFrame !! "name" = Some (PStr "End frame").
Proof.
  intros info startFrame endFrame Hlen rows.
  destruct info as [| a [| b [| c rest]]]; cbn in Hlen; try lia.
  subst rows. unfold info_with_frames, py_list_insert. cbn.
  repeat split.
  - intros i Hi. destruct i as [| [| [| i]]]; try reflexivity. lia.
  - intros i Hi. destruct i as [| [| [| i]]]; try lia.
    replace (S (S (S i)) + 2)%nat with (S (S (S (S (S i))))) by lia.
    reflexivity.
Qed.

(** * The other methods on concrete calls *)

Lemma load_malformed_source_raises_witness :
  [PInt 1; PInt 2; PInt 3] <> []
  /\ length [PInt 1; PInt 2; PInt 3] <> 2%nat
  /\ run (scripted walk_cycle)
         (load malcolm PNone PNone PNone (PList [PInt 1; PInt 2; PInt 3])
            (PStr "replace") PNone (PBool false)) tt
     = {| result := Raised ValueError;
          trace := [Logged ("Loading: " +:+ path malcolm)];
          final := tt |}.
Proof.
  assert (H1 : [PInt 1; PInt 2; PInt 3] <> []) by (intros H; discriminate H).
  assert (H2 : length [PInt 1; PInt 2; PInt 3] <> 2%nat)
    by (intros H; discriminate H).
  split; [exact H1 | split; [exact H2 |]].
  exact (load_malformed_source_raises (scripted walk_cycle) tt malcolm
           PNone PNone PNone (PList [PInt 1; PInt 2; PInt 3]) PNone
           (PBool false) "replace" [PInt 1; PInt 2; PInt 3] H1 H2
           (or_introl eq_refl)).
Defined.

Lemma load_number_source_witness :
  5 <> 0
  /\ run (scripted walk_cycle)
         (load malcolm PNone PNone PNone (PInt 5) (PStr "replace") PNone
            (PBool false)) tt
     = {| result := Raised TypeError;
          trace := [Logged ("Loading: " +:+ path malcolm)];
          final := tt |}.
Proof.
  assert (H : 5 <> 0) by (intros H; discriminate H).
  destruct (load_number_source (scripted walk_cycle) tt malcolm
              PNone PNone PNone PNone (PBool false) "replace" 5)
    as (Hint & _ & _).
  split; [exact H | exact (Hint H)].
Defined.

Lemma load_false_source_uses_bundle_witness :
  py_eq (PList [PBool false; PBool false]) (PList [PInt 0; PInt 0]) = true
  /\ Forall (fun req => req_sourceTime req = (PInt 0, PInt 200))
            (load_requests
               (trace (run (scripted walk_cycle)
                         (load malcolm PNone PNone PNone
                            (PList [PBool false; PBool false])
                            (PStr "replace") PNone (PBool false)) tt))).
Proof.
  destruct (load_false_source_uses_bundle (scripted walk_cycle) tt malcolm
              PNone PNone PNone (PList [PBool false; PBool false]) PNone
              (PBool false) "replace" (or_intror eq_refl)) as [_ Hreq].
  split; [reflexivity |].
  apply Forall_forall. intros req Hin.
  rewrite Forall_forall in Hreq. destruct (Hreq req Hin) as [Hs He].
  cbn in Hs, He. destruct (req_sourceTime req) as [a b]. cbn in Hs, He.
  congruence.
Defined.

Lemma load_failure_propagates_witness :
  In (MStartFrame, Failure "no metadata")
     (failures
        (trace (run (scripted {| on_startFrame := inl (Failure "no metadata");
                                 on_endFrame := inr (PInt 200);
                                 on_load := inr tt;
                                 on_fromObjects := inr 4%nat;
                                 on_updateMetadata := inr tt;
                                 on_save := inr tt;
                                 on_paths := inr [];
                                 on_commit := inr tt |})
                  (load malcolm PNone PNone PNone PNone (PStr "replace")
                     PNone (PBool false)) tt)))
  /\ MStartFrame <> MLoad
  /\ result (run (scripted {| on_startFrame := inl (Failure "no metadata");
                              on_endFrame := inr (PInt 200);
                              on_load := inr tt;
                              on_fromObjects := inr 4%nat;
                              on_updateMetadata := inr tt;
                              on_save := inr tt;
                              on_paths := inr [];
                              on_commit := inr tt |})
               (load malcolm PNone PNone PNone PNone (PStr "replace")
                  PNone (PBool false)) tt)
     = Raised (Failure "no metadata")
  /\ load_requests
       (trace (run (scripted {| on_startFrame := inl (Failure "no metadata");
                                on_endFrame := inr (PInt 200);
                                on_load := inr tt;
                                on_fromObjects := inr 4%nat;
                                on_updateMetadata := inr tt;
                                on_save := inr tt;
                                on_paths := inr [];
                                on_commit := inr tt |})
                 (load malcolm PNone PNone PNone PNone (PStr "replace")
                    PNone (PBool false)) tt))
     = [].
Proof.
  assert (Hne : MStartFrame <> MLoad) by (intros H; discriminate H).
  destruct (load_failure_propagates
              (scripted {| on_startFrame := inl (Failure "no metadata");
                           on_endFrame := inr (PInt 200);
                           on_load := inr tt;
                           on_fromObjects := inr 4%nat;
                           on_updateMetadata := inr tt;
                           on_save := inr tt;
                           on_paths := inr [];
                           on_commit := inr tt |})
              tt malcolm PNone PNone PNone PNone (PStr "replace") PNone
              (PBool false) MStartFrame (Failure "no metadata")
              (or_introl eq_refl)) as (Hr & Hnone & _).
  split; [left; reflexivity | split; [exact Hne |]].
  split; [exact Hr | exact (Hnone Hne)].
Defined.

Lemma loadOptions_default_never_none_witness :
  result (run (scripted walk_cycle) (loadOptions malcolm) tt)
  = Returned (schema (PInt 0) (PInt 200))
  /\ exists s e a b,
       start_frames (trace (run (scripted walk_cycle) (loadOptions malcolm) tt))
       = [s]
       /\ end_frames (trace (run (scripted walk_cycle) (loadOptions malcolm) tt))
          = [e]
       /\ a = (if py_truthy s then s else PInt 0)
       /\ b = (if py_truthy e then e else PInt 0)
       /\ schema (PInt 0) (PInt 200) = schema a b
       /\ a <> PNone /\ b <> PNone.
Proof.
  split; [reflexivity |].
  exact (loadOptions_default_never_none (scripted walk_cycle) tt malcolm
           (schema (PInt 0) (PInt 200)) eq_refl).
Defined.

Lemma loadOptions_defaults_round_trip_witness :
  (forall t w, fst (scripted walk_cycle _ (TOStartFrame t) w) = inr (PInt 0))
  /\ (forall t w, fst (scripted walk_cycle _ (TOEndFrame t) w) = inr (PInt 200))
  /\ result (run (scripted walk_cycle) (loadOptions malcolm) tt)
     = Returned (schema (PInt 0) (PInt 200))
  /\ Forall (fun req => req_sourceTime req = (PInt 0, PInt 200) /\
                        req_option req = PStr "replaceCompletely")
            (load_requests
               (trace (run (scripted walk_cycle)
                         (load malcolm PNone PNone PNone
                            (PList [PInt 0; PInt 200]) (PStr "replace all")
                            (PBool false) (PBool true)) tt)))
  /\ length (load_requests
               (trace (run (scripted walk_cycle)
                         (load malcolm PNone PNone PNone
                            (PList [PInt 0; PInt 200]) (PStr "replace all")
                            (PBool false) (PBool true)) tt))) = 1%nat.
Proof.
  assert (Hs : forall t w,
             fst (scripted walk_cycle _ (TOStartFrame t) w) = inr (PInt 0))
    by (intros; reflexivity).
  assert (He : forall t w,
             fst (scripted walk_cycle _ (TOEndFrame t) w) = inr (PInt 200))
    by (intros; reflexivity).
  destruct (loadOptions_defaults_round_trip (scripted walk_cycle) malcolm
              0 200 Hs He tt tt (schema (PInt 0) (PInt 200))
              {| d_name := "source"; d_type := "range";
                 d_default := PList [PInt 0; PInt 200];
                 d_items := None; d_persistent := Some false |}
              {| d_name := "option"; d_type := "enum";
                 d_default := PStr "replace all";
                 d_items := Some ["replace"; "replace all"; "insert"; "merge"];
                 d_persistent := None |}
              PNone PNone PNone (PBool false) (PBool true)
              eq_refl eq_refl eq_refl) as [Hreq Hlive].
  split; [exact Hs | split; [exact He | split; [reflexivity |]]].
  split; [exact Hreq |].
  destruct (Hlive eq_refl) as [_ Hlen]. exact Hlen.
Defined.

Lemma save_serializes_into_staging_witness :
  result (save_walk walk_cycle) = Returned tt
  /\ serializations (trace (save_walk walk_cycle))
     = [("/tmp/Transfer/transfer.anim", PStr "mayaAscii",
         PList [PInt 0; PInt 200], PBool false)]
  /\ length (serializations (trace (save_walk walk_cycle))) = 1%nat.
Proof.
  destruct (save_serializes_into_staging (scripted walk_cycle) tt malcolm
              (PList [PStr "pCube1"]) "/lib/char/walk"
              (Some ["/tmp/sequence"]) "/tmp/thumbnail.jpg" (PStr "mayaAscii")
              (PInt 0) (PInt 200) (PBool false) PNone)
    as (_ & _ & _ & _ & Hlen).
  split; [reflexivity | split; [reflexivity | exact (Hlen eq_refl)]].
Defined.

Lemma save_steps_in_order_witness :
  result (save_walk walk_cycle) = Returned tt
  /\ successes (trace (save_walk walk_cycle))
     = (staging_steps ++ [MBaseSave])%list
  /\ calls (trace (save_walk disk_full))
     = firstn 6 (staging_steps ++ [MBaseSave])%list.
Proof.
  destruct (save_steps_in_order (scripted walk_cycle) tt malcolm
              (PList [PStr "pCube1"]) "/lib/char/walk"
              (Some ["/tmp/sequence"]) "/tmp/thumbnail.jpg" (PStr "mayaAscii")
              (PInt 0) (PInt 200) (PBool false) PNone)
    as (_ & [Hret _] & _).
  split; [reflexivity | split; [exact (Hret eq_refl) | reflexivity]].
Defined.

Lemma widget_save_composition_witness :
  result (run (scripted walk_cycle)
            (AnimCreateWidget_save (fun _ => "/tmp/playblast")
               {| ui_startFrame := PInt 1; ui_endFrame := PInt 24;
                  ui_fileType := "mayaAscii"; ui_bakeChecked := true;
                  item := malcolm; iconPath := "/tmp/thumbnail.jpg";
                  sequencePath := Some "/tmp/playblast/thumbnail.0001.jpg" |}
               (PList [PStr "pCube1"]) "/lib/char/walk" "/ignored.png" PNone)
            tt)
  = Returned tt
  /\ commits
       (trace (run (scripted walk_cycle)
                 (AnimCreateWidget_save (fun _ => "/tmp/playblast")
                    {| ui_startFrame := PInt 1; ui_endFrame := PInt 24;
                       ui_fileType := "mayaAscii"; ui_bakeChecked := true;
                       item := malcolm; iconPath := "/tmp/thumbnail.jpg";
                       sequencePath :=
                         Some "/tmp/playblast/thumbnail.0001.jpg" |}
                    (PList [PStr "pCube1"]) "/lib/char/walk" "/ignored.png"
                    PNone) tt))
     = [("/lib/char/walk.anim",
         ["/tmp/playblast"; "/tmp/thumbnail.jpg";
          "/tmp/Transfer/transfer.anim/pose.json";
          "/tmp/Transfer/transfer.anim/animation.ma"])]
  /\ length
       (commits
          (trace (run (scripted walk_cycle)
                    (AnimCreateWidget_save (fun _ => "/tmp/playblast")
                       {| ui_startFrame := PInt 1; ui_endFrame := PInt 24;
                          ui_fileType := "mayaAscii"; ui_bakeChecked := true;
                          item := malcolm; iconPath := "/tmp/thumbnail.jpg";
                          sequencePath :=
                            Some "/tmp/playblast/thumbnail.0001.jpg" |}
                       (PList [PStr "pCube1"]) "/lib/char/walk" "/ignored.png"
                       PNone) tt))) = 1%nat.
Proof.
  destruct (widget_save_composition (scripted walk_cycle)
              (fun _ => "/tmp/playblast") tt
              {| ui_startFrame := PInt 1; ui_endFrame := PInt 24;
                 ui_fileType := "mayaAscii"; ui_bakeChecked := true;
                 item := malcolm; iconPath := "/tmp/thumbnail.jpg";
                 sequencePath := Some "/tmp/playblast/thumbnail.0001.jpg" |}
              (PList [PStr "pCube1"]) "/lib/char/walk" "/ignored.png"
              "/other.png" PNone) as (_ & _ & _ & Hlen).
  split; [reflexivity | split; [reflexivity | exact (Hlen eq_refl)]].
Defined.

Lemma options_basename_suffix_witness :
  ({[ "option" := PStr "insert"; "connect" := PBool true ]}
   : gmap string pyval) !! "option" = Some (PStr "insert")
  /\ "insert" <> "replace all" /\ "insert" <> "replaceCompletely"
  /\ options_basename {[ "option" := PStr "insert"; "connect" := PBool true ]}
     = inr (PStr "insertConnect")
  /\ options_basename {[ "option" := PStr "replace all";
                         "connect" := PBool true ]}
     = inr (PStr "replaceCompletely").
Proof.
  assert (H1 : "insert" <> "replace all") by (intros H; discriminate H).
  assert (H2 : "insert" <> "replaceCompletely") by (intros H; discriminate H).
  assert (Hi : ({[ "option" := PStr "insert"; "connect" := PBool true ]}
                : gmap string pyval) !! "option" = Some (PStr "insert"))
    by reflexivity.
  assert (Hr : ({[ "option" := PStr "replace all"; "connect" := PBool true ]}
                : gmap string pyval) !! "option" = Some (PStr "replace all"))
    by reflexivity.
  destruct (options_basename_suffix
              {[ "option" := PStr "insert"; "connect" := PBool true ]}
              "insert" Hi) as [_ Hsuffix].
  destruct (options_basename_suffix
              {[ "option" := PStr "replace all"; "connect" := PBool true ]}
              "replace all" Hr) as [Hlabel _].
  split; [exact Hi | split; [exact H1 | split; [exact H2 |]]].
  split; [exact (Hsuffix H1 H2) | exact (Hlabel (or_introl eq_refl))].
Defined.

Lemma options_basename_without_option_witness :
  ({[ "connect" := PBool true ]} : gmap string pyval) !! "option" = None
  /\ options_basename {[ "connect" := PBool true ]} = inl TypeError
  /\ options_basename ∅ = inr PNone.
Proof.
  assert (Hc : ({[ "connect" := PBool true ]} : gmap string pyval)
               !! "option" = None) by reflexivity.
  assert (He : (∅ : gmap string pyval) !! "option" = None) by reflexivity.
  assert (Ht : py_truthy
                 (default PNone (({[ "connect" := PBool true ]}
                                  : gmap string pyval) !! "connect")) = true)
    by reflexivity.
  assert (Hf : py_truthy
                 (default PNone ((∅ : gmap string pyval) !! "connect")) = false)
    by reflexivity.
  destruct (options_basename_without_option {[ "connect" := PBool true ]} Hc)
    as [Hraise _].
  destruct (options_basename_without_option ∅ He) as [_ Hnone].
  split; [exact Hc | split; [exact (Hraise Ht) | exact (Hnone Hf)]].
Defined.

Lemma options_basename_case_sensitive_witness :
  String.eqb (lower "Replace All") "replace all" = true
  /\ "Replace All" <> "replace all"
  /\ normalize_option (PStr "Replace All") = inr (PStr "replaceCompletely")
  /\ options_basename {[ "option" := PStr "Replace All" ]}
     = inr (PStr "Replace All").
Proof.
  assert (H : "Replace All" <> "replace all") by (intros H; discriminate H).
  assert (Ho : ({[ "option" := PStr "Replace All" ]} : gmap string pyval)
               !! "option" = Some (PStr "Replace All")) by reflexivity.
  assert (Hc : ({[ "option" := PStr "Replace All" ]} : gmap string pyval)
               !! "connect" = None) by reflexivity.
  destruct (options_basename_case_sensitive
              {[ "option" := PStr "Replace All" ]} "Replace All"
              eq_refl H Ho Hc) as [Hload Hchanged].
  split; [reflexivity | split; [exact H | split; assumption]].
Defined.

Lemma info_with_frames_lookup_witness :
  (3 <= length [info_row "Name" "walk"; info_row "Owner" "kurt";
                info_row "Modified" "today"; info_row "Comment" ""])%nat
  /\ info_with_frames
       [info_row "Name" "walk"; info_row "Owner" "kurt";
        info_row "Modified" "today"; info_row "Comment" ""] "0" "200"
     !! 3%nat = Some (info_row "Start frame" "0")
  /\ info_with_frames
       [info_row "Name" "walk"; info_row "Owner" "kurt";
        info_row "Modified" "today"; info_row "Comment" ""] "0" "200"
     !! 4%nat = Some (info_row "End frame" "200")
  /\ info_with_frames
       [info_row "Name" "walk"; info_row "Owner" "kurt";
        info_row "Modified" "today"; info_row "Comment" ""] "0" "200"
     !! 5%nat = Some (info_row "Comment" "").
Proof.
  assert (Hlen : (3 <= length [info_row "Name" "walk"; info_row "Owner" "kurt";
                               info_row "Modified" "today";
                               info_row "Comment" ""])%nat)
    by (cbn; lia).
  destruct (info_with_frames_lookup
              [info_row "Name" "walk"; info_row "Owner" "kurt";
               info_row "Modified" "today"; info_row "Comment" ""]
              "0" "200" Hlen) as (H3 & H4 & _ & Hshift & _).
  split; [exact Hlen | split; [exact H3 | split; [exact H4 |]]].
  exact (Hshift 3%nat (le_n 3)).
Defined.

Lemma load_fills_missing_component_witness :
  failures (trace replay_from_start) = []
  /\ failures (trace replay_to_end) = []
  /\ result replay_from_start = Returned tt
  /\ length (start_frames (trace replay_from_start)) = 1%nat
  /\ map req_sourceTime (load_requests (trace replay_from_start))
     = [(PInt 0, PInt 100)]
  /\ result replay_to_end = Returned tt
  /\ length (end_frames (trace replay_to_end)) = 1%nat
  /\ map req_sourceTime (load_requests (trace replay_to_end))
     = [(PInt 50, PInt 200)].
Proof.
  destruct (load_fills_missing_component (scripted walk_cycle) tt malcolm
              PNone PNone PNone PNone (PBool false) "replace" 100)
    as [(_ & _ & Hstart) _].
  destruct (load_fills_missing_component (scripted walk_cycle) tt malcolm
              PNone PNone PNone PNone (PBool false) "replace" 50)
    as [_ (_ & _ & Hend)].
  destruct (Hstart eq_refl) as (Hr1 & Hs1 & _).
  destruct (Hend eq_refl) as (Hr2 & He2 & _).
  split; [reflexivity | split; [reflexivity |]].
  split; [exact Hr1 | split; [exact Hs1 | split; [reflexivity |]]].
  split; [exact Hr2 | split; [exact He2 | reflexivity]].
Defined.
